(** * docker-code-runner: the job pipeline of [app.js]

    A shallow embedding of the Express route [POST /run] and of the BullMQ
    worker of [app.js], together with the pieces of the JavaScript platform
    the worker leans on ([String.prototype.replaceAll], [includes],
    [String.prototype.match] on the class-name pattern, property lookup on
    an object literal, [child_process.exec]).

    Conventions.
    - A JavaScript string is a [string]; each [ascii] stands for one UTF-16
      code unit below 256.
    - Console logging is not modelled: it has no influence on the results.
    - The file system, the uuid generator, the queue broker and the
      container runtime are the environment: their answers are read from an
      [Env] record, and every call the worker issues is recorded as an
      [event]. *)

From stdpp Require Import gmap strings list.
From Stdlib Require Import ZArith Ascii String DecimalString Lia.

Local Open Scope string_scope.

(** [simpl] computes appends on texts that start with known code units. *)
#[local] Arguments String.append !_ _ / : simpl nomatch.

(** ** Strings *)

Module JsString.

Definition LF : ascii := "010"%char.
Definition DQUOTE : ascii := "034"%char.

(** Every code unit of [s] satisfies [p]. *)
Fixpoint all_chars (p : ascii → bool) (s : string) : bool :=
  match s with
  | EmptyString => true
  | String c r => p c && all_chars p r
  end.

(** [starts_with p s]: [s.startsWith(p)]. *)
Fixpoint starts_with (p s : string) : bool :=
  match p, s with
  | EmptyString, _ => true
  | String _ _, EmptyString => false
  | String a p', String b s' => Ascii.eqb a b && starts_with p' s'
  end.

(** [skipn_string n s]: [s.substring(n)]. *)
Fixpoint skipn_string (n : nat) (s : string) : string :=
  match n, s with
  | O, _ => s
  | S _, EmptyString => EmptyString
  | S k, String _ r => skipn_string k r
  end.

(** [includes s p]: [s.includes(p)], some suffix of [s] starts with [p]. *)
Fixpoint includes (s p : string) : bool :=
  starts_with p s ||
  match s with
  | EmptyString => false
  | String _ r => includes r p
  end.

(** GetSubstitution of ECMAScript for a string pattern (no capture groups):
    in the replacement text [$$] stands for a dollar sign, [$&] for the
    matched text, [$`] for the text before the match and [$'] for the text
    after it; any other dollar sign is kept as it is. *)
Fixpoint get_substitution (matched before after template : string) : string :=
  match template with
  | EmptyString => EmptyString
  | String c t1 =>
      if Ascii.eqb c "$" then
        match t1 with
        | EmptyString => String c EmptyString
        | String d t2 =>
            if Ascii.eqb d "$" then
              String "$" (get_substitution matched before after t2)
            else if Ascii.eqb d "&" then
              matched +:+ get_substitution matched before after t2
            else if Ascii.eqb d "`" then
              before +:+ get_substitution matched before after t2
            else if Ascii.eqb d "'" then
              after +:+ get_substitution matched before after t2
            else String c (get_substitution matched before after t1)
        end
      else String c (get_substitution matched before after t1)
  end.

(** The scan of [replaceAll] for a non-empty search string: matches are
    found from left to right and do not overlap. [before] is the text
    already passed, [skip] counts the code units of the current match that
    are still to be stepped over. *)
Fixpoint replace_scan (pat rep before : string) (skip : nat) (s : string)
  : string :=
  match s with
  | EmptyString => EmptyString
  | String c r =>
      match skip with
      | S k => replace_scan pat rep (before +:+ String c EmptyString) k r
      | O =>
          if starts_with pat s then
            get_substitution pat before (skipn_string (String.length pat) s) rep
            +:+ replace_scan pat rep (before +:+ String c EmptyString)
                  (String.length pat - 1) r
          else
            String c (replace_scan pat rep (before +:+ String c EmptyString) 0 r)
      end
  end.

(** With the empty search string a match sits before every code unit and
    at the end. *)
Fixpoint replace_empty (rep before s : string) : string :=
  get_substitution EmptyString before s rep +:+
  match s with
  | EmptyString => EmptyString
  | String c r => String c (replace_empty rep (before +:+ String c EmptyString) r)
  end.

(** [replaceAll s pat rep]: [s.replaceAll(pat, rep)] for strings [pat],
    [rep]. *)
Definition replaceAll (s pat rep : string) : string :=
  match pat with
  | EmptyString => replace_empty rep EmptyString s
  | String _ _ => replace_scan pat rep EmptyString 0 s
  end.

(** The same scan with the replacement inserted as it is; [replaceAll]
    agrees with it on replacement texts without a dollar sign
    ([replaceAll_plain] below). *)
Fixpoint replace_plain (pat rep : string) (skip : nat) (s : string) : string :=
  match s with
  | EmptyString => EmptyString
  | String c r =>
      match skip with
      | S k => replace_plain pat rep k r
      | O =>
          if starts_with pat s
          then rep +:+ replace_plain pat rep (String.length pat - 1) r
          else String c (replace_plain pat rep 0 r)
      end
  end.

Definition is_dollar (c : ascii) : bool := Ascii.eqb c "$".
Definition no_dollar (s : string) : bool := all_chars (λ c, negb (is_dollar c)) s.

(** [replaced pat rep s t]: [t] is [s] with the occurrences of [pat],
    taken from left to right without overlap, each turned into [rep], and
    every other code unit kept. *)
Inductive replaced (pat rep : string) : string → string → Prop :=
| replaced_end : replaced pat rep EmptyString EmptyString
| replaced_here (s t : string) :
    replaced pat rep s t → replaced pat rep (pat +:+ s) (rep +:+ t)
| replaced_keep (c : ascii) (s t : string) :
    starts_with pat (String c s) = false →
    replaced pat rep s t → replaced pat rep (String c s) (String c t).

(** Neither a dollar sign nor an opening brace: a text that [replaceAll]
    inserts as it is and in which no placeholder can start. *)
Definition is_plain_char (c : ascii) : bool :=
  negb (Ascii.eqb c "$") && negb (Ascii.eqb c "{").
Definition plain (s : string) : bool := all_chars is_plain_char s.

End JsString.

(** ** Values of a parsed JSON body *)

Module JsValue.

(** What [express.json()] can put into a field of [req.body], plus
    [undefined] for a field that is absent. [VNum n] is an integral number
    in the safe range, where ToString is the decimal numeral. *)
#[warnings="-register-all"] Inductive value : Type :=
| VUndefined
| VNull
| VBool (b : bool)
| VNum (n : Z)
| VStr (s : string)
| VArr (items : list value)
| VObj (fields : list (string * value)).

(** ToBoolean, as used by [!x] and by [if (x)]. *)
Definition truthy (v : value) : bool :=
  match v with
  | VUndefined | VNull => false
  | VBool b => b
  | VNum n => negb (n =? 0)%Z
  | VStr s => negb (String.eqb s EmptyString)
  | VArr _ | VObj _ => true
  end.

(** [typeof v === 'string'] *)
Definition is_string (v : value) : bool :=
  match v with VStr _ => true | _ => false end.

(** [v === s] for a string literal [s]. *)
Definition strict_eq_str (v : value) (s : string) : bool :=
  match v with VStr t => String.eqb t s | _ => false end.

Definition has_own (fields : list (string * value)) (name : string) : bool :=
  existsb (λ kv, String.eqb kv.1 name) fields.

(** ToString of a value, [None] when the conversion throws a TypeError.
    An array is joined with commas, [null] and [undefined] elements giving
    the empty text. A plain object inherits [Object.prototype.toString]
    unless an own field [toString] shadows it: a JSON value is never
    callable, [Object.prototype.valueOf] returns the object itself, and
    OrdinaryToPrimitive throws. *)
Fixpoint to_string (v : value) : option string :=
  match v with
  | VUndefined => Some "undefined"
  | VNull => Some "null"
  | VBool true => Some "true"
  | VBool false => Some "false"
  | VNum n => Some (NilZero.string_of_int (Z.to_int n))
  | VStr s => Some s
  | VArr items =>
      let element (x : value) : option string :=
        match x with
        | VUndefined | VNull => Some EmptyString
        | _ => to_string x
        end in
      (fix join (l : list value) : option string :=
         match l with
         | [] => Some EmptyString
         | [x] => element x
         | x :: r =>
             match element x, join r with
             | Some a, Some b => Some (a +:+ "," +:+ b)
             | _, _ => None
             end
         end) items
  | VObj fields =>
      if has_own fields "toString" then None else Some "[object Object]"
  end.

(** ToPropertyKey: the key used by [obj[v]]. *)
Definition to_property_key (v : value) : option string := to_string v.

End JsValue.

(** ** Regular expressions *)

Module JsRegExp.
Import JsString.

(** The fragment of the pattern syntax the service uses: literal text, a
    character class, a greedy [*] or [+] on a class, sequencing and a
    capturing group. *)
Inductive regex : Type :=
| Lit (s : string)
| Class (p : ascii → bool)
| Star (p : ascii → bool)
| Plus (p : ascii → bool)
| Seq (r1 r2 : regex)
| Group (r : regex).

Definition in_range (lo hi : nat) (c : ascii) : bool :=
  ((lo <=? nat_of_ascii c) && (nat_of_ascii c <=? hi))%nat.

(** [\s] on code units below 256: TAB, LF, VT, FF, CR, SP and NBSP. *)
Definition is_space (c : ascii) : bool :=
  in_range 9 13 c || in_range 32 32 c || in_range 160 160 c.

(** [[A-Za-z_]] *)
Definition is_ident_start (c : ascii) : bool :=
  in_range 65 90 c || in_range 97 122 c || in_range 95 95 c.

(** [[A-Za-z0-9_]] *)
Definition is_ident_char (c : ascii) : bool :=
  is_ident_start c || in_range 48 57 c.

Fixpoint strip_prefix (p s : string) : option string :=
  match p, s with
  | EmptyString, _ => Some s
  | String _ _, EmptyString => None
  | String a p', String b s' =>
      if Ascii.eqb a b then strip_prefix p' s' else None
  end.

Fixpoint take_string (n : nat) (s : string) : string :=
  match n, s with
  | O, _ => EmptyString
  | S _, EmptyString => EmptyString
  | S k, String c r => String c (take_string k r)
  end.

(** The text between the position [s] and the later position [rest]. *)
Definition consumed (s rest : string) : string :=
  take_string (String.length s - String.length rest) s.

(** Greedy repetition of a class with backtracking: the longest run is
    tried first, and a code unit is given back each time the continuation
    [k] fails. *)
Fixpoint star_class {A : Type} (p : ascii → bool) (s : string)
  (k : string → option A) : option A :=
  match s with
  | EmptyString => k s
  | String c r =>
      if p c then
        match star_class p r k with
        | Some x => Some x
        | None => k s
        end
      else k s
  end.

(** Backtracking matcher in continuation-passing style. [caps] collects
    the captures in the order in which their groups close. *)
Fixpoint run {A : Type} (re : regex) (s : string) (caps : list string)
  (k : string → list string → option A) : option A :=
  match re with
  | Lit l =>
      match strip_prefix l s with
      | Some r => k r caps
      | None => None
      end
  | Class p =>
      match s with
      | String c r => if p c then k r caps else None
      | EmptyString => None
      end
  | Star p => star_class p s (λ r, k r caps)
  | Plus p =>
      match s with
      | String c r => if p c then star_class p r (λ r', k r' caps) else None
      | EmptyString => None
      end
  | Seq r1 r2 => run r1 s caps (λ s1 caps1, run r2 s1 caps1 k)
  | Group r => run r s caps (λ s1 caps1, k s1 (caps1 ++ [consumed s s1])%list)
  end.

(** [re.exec(s)] without flags, which is also [s.match(re)]: the match at
    the leftmost position where one exists, as the array of the whole match
    followed by the captures. *)
Fixpoint regexp_exec (re : regex) (s : string) : option (list string) :=
  match run re s [] (λ rest caps, Some (consumed s rest :: caps)) with
  | Some m => Some m
  | None =>
      match s with
      | EmptyString => None
      | String _ r => regexp_exec re r
      end
  end.

Fixpoint drop_while (p : ascii → bool) (s : string) : string :=
  match s with
  | EmptyString => EmptyString
  | String c r => if p c then drop_while p r else s
  end.

Fixpoint take_while (p : ascii → bool) (s : string) : string :=
  match s with
  | EmptyString => EmptyString
  | String c r => if p c then String c (take_while p r) else EmptyString
  end.

(** A word of [[A-Za-z_][A-Za-z0-9_]*]. *)
Definition is_identifier (s : string) : bool :=
  match s with
  | EmptyString => false
  | String c r => is_ident_start c && all_chars is_ident_char r
  end.

End JsRegExp.

(** ** The service *)

Module App.
Import JsString JsValue JsRegExp.

(** *** Configuration constants *)

Definition VOLUME_NAME : string := "code_execution_volume".
(** [path.join(__dirname, 'code')]; the image runs [app.js] from [/app]
    and mounts the volume at [/app/code]. *)
Definition CODE_DIR : string := "/app/code".
Definition DOCKER_MEM_LIMIT : string := "256m".
Definition DOCKER_CPU_LIMIT : string := "0.5".
(** [0o644] *)
Definition DEFAULT_FILE_PERMISSIONS : N := 420.
(** The [timeout] option handed to [exec], in milliseconds. *)
Definition EXEC_TIMEOUT : N := 15000.

Record LangConfig : Type := {
  ext : string;
  compileCmd : string;
  dockerImage : string
}.

Definition LANGUAGES : gmap string LangConfig :=
  list_to_map [
    ("c", {| ext := "c";
             compileCmd := "gcc {file} -o {output} && {output}";
             dockerImage := "gcc:13" |});
    ("cpp", {| ext := "cpp";
               compileCmd := "g++ {file} -o {output} && {output}";
               dockerImage := "gcc:13" |});
    ("python", {| ext := "py";
                  compileCmd := "python3 {file}";
                  dockerImage := "python" |});
    ("java", {| ext := "java";
                compileCmd := "javac {file} && java {classname}";
                dockerImage := "openjdk:17" |});
    ("node", {| ext := "js";
                compileCmd := "node {file}";
                dockerImage := "node" |})
  ].

(** The names every object literal inherits from [Object.prototype]. Each
    of them holds a function, or the prototype object itself for
    [__proto__]: a truthy value with no [ext], [compileCmd] or
    [dockerImage] property. *)
Definition OBJECT_PROTOTYPE : list string := [
  "constructor"; "hasOwnProperty"; "isPrototypeOf"; "propertyIsEnumerable";
  "toLocaleString"; "toString"; "valueOf"; "__proto__";
  "__defineGetter__"; "__defineSetter__"; "__lookupGetter__";
  "__lookupSetter__"
].

(** The result of [LANGUAGES[key]]. *)
Inductive property : Type :=
| Own (d : LangConfig)
| Inherited (name : string)
| Missing.

(** [LANGUAGES[key]]: own properties first, then the prototype chain. *)
Definition get_language (key : string) : property :=
  match LANGUAGES !! key with
  | Some d => Own d
  | None => if bool_decide (key ∈ OBJECT_PROTOTYPE) then Inherited key else Missing
  end.

(** ToBoolean of a looked-up property: only [undefined] is falsy. *)
Definition property_truthy (p : property) : bool :=
  match p with
  | Own _ | Inherited _ => true
  | Missing => false
  end.

(** *** The queue *)

(** [job.data] is [{language, code}]; [code] has passed the [typeof]
    check of the route. BullMQ numbers the jobs of a queue: [job_id] is
    that number. *)
Record Job : Type := {
  job_id : nat;
  job_language : value;
  job_code : string
}.

(** The broker as the route sees it: whether it can be reached, the id it
    will assign next, and the jobs it holds. *)
Record Queue : Type := {
  broker_up : bool;
  next_id : nat;
  jobs : list Job
}.

(** [codeQueue.add('execute', {language, code})]: [None] when the call
    rejects. *)
Definition queue_add (q : Queue) (language : value) (code : string)
  : option (Job * Queue) :=
  if broker_up q then
    let job := {| job_id := next_id q; job_language := language;
                  job_code := code |} in
    Some (job, {| broker_up := true; next_id := S (next_id q);
                  jobs := (jobs q ++ [job])%list |})
  else None.

(** *** POST /run *)

Record Request : Type := {
  req_language : value;
  req_code : value
}.

Inductive body : Type :=
| ErrorBody (error : string)
| JobIdBody (jobId : nat).

Record Response : Type := {
  status : nat;
  json : body
}.

(** What the handler does with a request: it sends a response, or it
    throws before sending one. *)
Inductive reply : Type :=
| Responded (r : Response)
| Unhandled (error : string).

(** [res.status(400).json({ error: msg })] *)
Definition bad_request (msg : string) : reply :=
  Responded {| status := 400; json := ErrorBody msg |}.

(** The string held by a value that passed [typeof code === 'string']. *)
Definition string_of (v : value) : string :=
  match v with VStr s => s | _ => EmptyString end.

Definition post_run (req : Request) (q : Queue) : reply * Queue :=
  let language := req_language req in
  let code := req_code req in
  if negb (truthy code) || negb (is_string code) then
    (bad_request "Missing or invalid code field", q)
  else if negb (truthy language) then
    (bad_request "Missing or unsupported language", q)
  else
    match to_property_key language with
    | None => (Unhandled "Cannot convert object to primitive value", q)
    | Some key =>
        if negb (property_truthy (get_language key)) then
          (bad_request "Missing or unsupported language", q)
        else
          match queue_add q language (string_of code) with
          | Some (job, q') =>
              (Responded {| status := 202; json := JobIdBody (job_id job) |}, q')
          | None =>
              (Responded {| status := 500;
                            json := ErrorBody "Failed to queue execution job" |}, q)
          end
    end.

(** *** The world of the worker *)

Record File : Type := {
  content : string;
  mode : N
}.

(** The calls of [fs.promises] that may reject. *)
Inductive fs_call : Type :=
| FsWriteFile (path : string)
| FsChmod (path : string)
| FsUnlink (path : string).

(** How the process started by [exec] ended: by itself with an exit
    status, or killed when the timer of the [timeout] option fired. Both
    carry what was captured of the two streams; output beyond the
    [maxBuffer] of [exec] is not modelled. *)
Inductive proc_exit : Type :=
| Exit (code : Z) (stdout stderr : string)
| TimedOut (stdout stderr : string).

(** Everything outside the worker that decides how a job goes. *)
Record Env : Type := {
  (** the value [uuidv4()] returns for this job *)
  uuidv4 : string;
  (** the message of the error a file-system call rejects with, if any *)
  fs_error : fs_call → option string;
  (** what running a command line does: how it ends and the workspace it
      leaves behind *)
  sandbox : string → gmap string File → proc_exit * gmap string File
}.

(** The calls the worker issues, in order. *)
Inductive event : Type :=
| EvWriteFile (path data : string)
| EvChmod (path : string) (perm : N)
| EvExec (cmd : string) (timeout : N) (res : proc_exit)
| EvStat (path : string)
| EvUnlink (path : string).

(** A thrown [Error]: its [message], and its [stderr] property when it
    has one ([exec] sets it on the errors it rejects with). *)
Record JsError : Type := {
  message : string;
  err_stderr : option string
}.

Definition Error (msg : string) : JsError :=
  {| message := msg; err_stderr := None |}.

Inductive completion (A : Type) : Type :=
| Normal (a : A)
| Throw (e : JsError).
Arguments Normal {A} a.
Arguments Throw {A} e.

(** Workspace-passing computations that may throw and that log their
    calls. *)
Definition M (A : Type) : Type :=
  gmap string File → completion A * gmap string File * list event.

Definition ret {A : Type} (a : A) : M A := λ fs, (Normal a, fs, []).

Definition throw {A : Type} (e : JsError) : M A := λ fs, (Throw e, fs, []).

Definition bind {A B : Type} (m : M A) (k : A → M B) : M B :=
  λ fs,
    match m fs with
    | (Normal a, fs1, ev1) =>
        match k a fs1 with
        | (r, fs2, ev2) => (r, fs2, (ev1 ++ ev2)%list)
        end
    | (Throw e, fs1, ev1) => (Throw e, fs1, ev1)
    end.

(** [try { m } catch (e) { handler e }] *)
Definition try_catch {A : Type} (m : M A) (handler : JsError → M A) : M A :=
  λ fs,
    match m fs with
    | (Normal a, fs1, ev1) => (Normal a, fs1, ev1)
    | (Throw e, fs1, ev1) =>
        match handler e fs1 with
        | (r, fs2, ev2) => (r, fs2, (ev1 ++ ev2)%list)
        end
    end.

Notation "'let*' x ':=' m 'in' k" := (bind m (λ x, k))
  (at level 10, x pattern, m at level 100, k at level 200).

Notation "m ';;;' k" := (bind m (λ _, k))
  (at level 100, k at level 200, right associativity).

(** [path.join(dir, name)] for a normalized [dir] and a [name] that is a
    single segment. *)
Definition path_join (dir name : string) : string := dir ++ "/" ++ name.

(** The replacements object of [formatCommand]; [Object.entries] lists it
    in the order [file], [output], [classname]. *)
Record Replacements : Type := {
  file : string;
  output : string;
  classname : string
}.

Definition entries (r : Replacements) : list (string * string) :=
  [("file", file r); ("output", output r); ("classname", classname r)].

(** [formatCommand(template, replacements)] on a string template. *)
Definition formatCommand (template : string) (r : Replacements) : string :=
  fold_left (λ cmd kv, replaceAll cmd ("{" ++ kv.1 ++ "}") kv.2)
    (entries r) template.

(** [`${className}`]-style interpolation of [langConfig.ext]. *)
Definition ext_text (p : property) : string :=
  match p with
  | Own d => ext d
  | Inherited _ | Missing => "undefined"
  end.

(** What the language-specific setup of the worker leaves in its local
    variables. *)
Record Setup : Type := {
  filename : string;
  className : string;
  filepath : string;
  containerCodePath : string;
  filesToCleanup : list string
}.

(** The pattern of [code.match] in the Java branch: the word public,
    [\s+], the word class, [\s+], and one capturing group holding
    [[A-Za-z_]] followed by a starred [[A-Za-z0-9_]]. *)
Definition CLASS_RE : regex :=
  Seq (Lit "public") (Seq (Plus is_space) (Seq (Lit "class") (Seq (Plus is_space)
    (Group (Seq (Class is_ident_start) (Star is_ident_char)))))).

(** The match of [CLASS_RE] at the start of [s] read off greedily, with
    no backtracking: the capture and the text after the match. It is what
    [run CLASS_RE] computes ([run_class_re] below). *)
Definition class_at (s : string) : option (string * string) :=
  match strip_prefix "public" s with
  | Some (String c1 r1) =>
      if is_space c1 then
        match strip_prefix "class" (drop_while is_space r1) with
        | Some (String c2 r2) =>
            if is_space c2 then
              match drop_while is_space r2 with
              | String c3 r3 =>
                  if is_ident_start c3
                  then Some (String c3 (take_while is_ident_char r3),
                             drop_while is_ident_char r3)
                  else None
              | EmptyString => None
              end
            else None
        | _ => None
        end
      else None
  | _ => None
  end.

(** The words of the pattern, stated on the text: [whole] is the word
    public, white space, the word class, white space and an identifier
    [cls] that the text after it does not continue. *)
Definition class_declared (s whole cls : string) : Prop :=
  ∃ w1 w2 rest,
    s = whole ++ rest ∧
    whole = "public" ++ w1 ++ "class" ++ w2 ++ cls ∧
    w1 ≠ EmptyString ∧ all_chars is_space w1 = true ∧
    w2 ≠ EmptyString ∧ all_chars is_space w2 = true ∧
    is_identifier cls = true ∧
    match rest with
    | EmptyString => True
    | String c _ => is_ident_char c = false
    end.

(** The class name the Java branch settles on: the first capture when
    the pattern matches, the default ['Main'] otherwise. *)
Definition java_class_name (code : string) : string :=
  match regexp_exec CLASS_RE code with
  | Some classMatch =>
      match classMatch !! 1%nat with
      | Some c => if negb (String.eqb c EmptyString) then c else "Main"
      | None => "Main"
      end
  | None => "Main"
  end.

(** The [if (language === 'java') ... else ...] block; [None] when
    [langConfig.ext] is read from [undefined]. *)
Definition language_setup (language : value) (code : string)
  (langConfig : property) (id : string) : option Setup :=
  if strict_eq_str language "java" then
    let className := java_class_name code in
    let filename := className ++ ".java" in
    Some {| filename := filename;
            className := className;
            filepath := path_join CODE_DIR filename;
            containerCodePath := "/code/" ++ filename;
            filesToCleanup :=
              [path_join CODE_DIR filename;
               path_join CODE_DIR (className ++ ".class")] |}
  else
    match langConfig with
    | Missing => None
    | _ =>
        let filename := id ++ "." ++ ext_text langConfig in
        Some {| filename := filename;
                className := "Main";
                filepath := path_join CODE_DIR filename;
                containerCodePath := "/code/" ++ filename;
                filesToCleanup := [path_join CODE_DIR filename] |}
    end.

(** The command line handed to [exec]. *)
Definition dockerCmd (image compileCommand : string) : string :=
  "docker run" ++ " " ++
  "--rm" ++ " " ++
  ("--memory=" ++ DOCKER_MEM_LIMIT) ++ " " ++
  ("--cpus=" ++ DOCKER_CPU_LIMIT) ++ " " ++
  "--network=none" ++ " " ++
  ("-v " ++ VOLUME_NAME ++ ":/code") ++ " " ++
  "-w /code" ++ " " ++
  image ++ " " ++
  ("sh -c " ++ String DQUOTE compileCommand ++ String DQUOTE EmptyString).

(** The message [child_process.exec] gives the error it rejects with. *)
Definition exec_error_message (cmd stderr : string) : string :=
  "Command failed: " ++ cmd ++ String LF stderr.

Section Worker.

Variable env : Env.

(** [fs.writeFile(path, data)] *)
Definition writeFile (path data : string) : M unit :=
  λ fs,
    match fs_error env (FsWriteFile path) with
    | Some msg => (Throw (Error msg), fs, [EvWriteFile path data])
    | None =>
        let perm := match fs !! path with
                    | Some f => mode f
                    | None => DEFAULT_FILE_PERMISSIONS
                    end in
        (Normal tt, <[path := {| content := data; mode := perm |}]> fs,
         [EvWriteFile path data])
    end.

(** [fs.chmod(path, perm)] *)
Definition chmod (path : string) (perm : N) : M unit :=
  λ fs,
    match fs_error env (FsChmod path), fs !! path with
    | Some msg, _ => (Throw (Error msg), fs, [EvChmod path perm])
    | None, Some f =>
        (Normal tt, <[path := {| content := content f; mode := perm |}]> fs,
         [EvChmod path perm])
    | None, None =>
        (Throw (Error ("ENOENT: no such file or directory, chmod '" ++ path ++ "'")),
         fs, [EvChmod path perm])
    end.

(** [fs.stat(path).then(() => true).catch(() => false)] *)
Definition stat_exists (path : string) : M bool :=
  λ fs, (Normal (bool_decide (is_Some (fs !! path))), fs, [EvStat path]).

(** [fs.unlink(path)] *)
Definition unlink (path : string) : M unit :=
  λ fs,
    match fs_error env (FsUnlink path), fs !! path with
    | Some msg, _ => (Throw (Error msg), fs, [EvUnlink path])
    | None, Some _ => (Normal tt, delete path fs, [EvUnlink path])
    | None, None =>
        (Throw (Error ("ENOENT: no such file or directory, unlink '" ++ path ++ "'")),
         fs, [EvUnlink path])
    end.

(** [cleanupFiles(filePaths, jobId)]: errors of a clean-up step are
    logged and dropped. *)
Fixpoint cleanupFiles (filePaths : list string) : M unit :=
  match filePaths with
  | [] => ret tt
  | filePath :: rest =>
      try_catch
        (let* found := stat_exists filePath in
         if found then unlink filePath else ret tt)
        (λ _, ret tt) ;;;
      cleanupFiles rest
  end.

(** The promisified [exec(cmd, { timeout })]: it resolves with the two
    streams when the process exits with status 0, and rejects otherwise
    with an error that carries them. *)
Definition exec (cmd : string) (timeout : N) : M (string * string) :=
  λ fs,
    let '(res, fs') := sandbox env cmd fs in
    match res with
    | Exit 0 out err => (Normal (out, err), fs', [EvExec cmd timeout res])
    | Exit _ out err | TimedOut out err =>
        (Throw {| message := exec_error_message cmd err; err_stderr := Some err |},
         fs', [EvExec cmd timeout res])
    end.

(** The [formatCommand] call of the worker: the template is
    [langConfig.compileCmd]. On an inherited member that property is
    [undefined] and [undefined.replaceAll] throws; on [undefined] the
    property access itself throws. *)
Definition format_compile_command (langConfig : property) (r : Replacements)
  : M string :=
  match langConfig with
  | Own d => ret (formatCommand (compileCmd d) r)
  | Inherited _ =>
      throw (Error "Cannot read properties of undefined (reading 'replaceAll')")
  | Missing =>
      throw (Error "Cannot read properties of undefined (reading 'compileCmd')")
  end.

(** [langConfig.dockerImage] inside the command line. *)
Definition image_text (p : property) : string :=
  match p with
  | Own d => dockerImage d
  | Inherited _ | Missing => EmptyString
  end.

(** The processor function handed to [new Worker]. *)
Definition worker (job : Job) : M string :=
  let language := job_language job in
  let code := job_code job in
  match to_property_key language with
  | None => throw (Error "Cannot convert object to primitive value")
  | Some key =>
  let langConfig := get_language key in
  let id := uuidv4 env in
  match language_setup language code langConfig id with
  | None => throw (Error "Cannot read properties of undefined (reading 'ext')")
  | Some st =>
  let containerOutputPath := "/code/" ++ id ++ ".out" in
  try_catch
    (writeFile (filepath st) code ;;;
     chmod (filepath st) DEFAULT_FILE_PERMISSIONS ;;;
     let* compileCommand :=
       format_compile_command langConfig
         {| file := containerCodePath st;
            output := containerOutputPath;
            classname := className st |} in
     let filesToCleanup :=
       if includes compileCommand containerOutputPath
          && negb (strict_eq_str language "java")
       then (filesToCleanup st ++ [path_join CODE_DIR (id ++ ".out")])%list
       else filesToCleanup st in
     let* (stdout, stderr) :=
       exec (dockerCmd (image_text langConfig) compileCommand) EXEC_TIMEOUT in
     (if negb (String.eqb stderr EmptyString) then
        if strict_eq_str language "java" || strict_eq_str language "c"
           || strict_eq_str language "cpp"
        then throw (Error ("Execution potentially failed. Stderr:" ++ String LF stderr))
        else ret tt
      else ret tt) ;;;
     cleanupFiles filesToCleanup ;;;
     ret stdout)
    (λ error,
       let errorMessage :=
         match err_stderr error with
         | Some s =>
             if negb (String.eqb s EmptyString)
             then message error ++ String LF ("Stderr:" ++ String LF s)
             else message error
         | None => message error
         end in
       throw (Error errorMessage))
  end
  end.

(** The files the worker puts on its clean-up list for a job: the list
    of the setup, and the compiled binary when the command mentions it. *)
Definition artifact_set (job : Job) : list string :=
  match to_property_key (job_language job) with
  | None => []
  | Some key =>
      match language_setup (job_language job) (job_code job)
              (get_language key) (uuidv4 env), get_language key with
      | Some st, Own d =>
          let out := "/code/" ++ uuidv4 env ++ ".out" in
          let cmd := formatCommand (compileCmd d)
                       {| file := containerCodePath st; output := out;
                          classname := className st |} in
          if includes cmd out && negb (strict_eq_str (job_language job) "java")
          then (filesToCleanup st ++ [path_join CODE_DIR (uuidv4 env ++ ".out")])%list
          else filesToCleanup st
      | Some st, _ => filesToCleanup st
      | None, _ => []
      end
  end.

End Worker.

(** How BullMQ settles a job: [completed] with the value the processor
    resolves with, [failed] with the message of the error it throws. *)
Inductive JobResult : Type :=
| Completed (returnvalue : string)
| Failed (failedReason : string).

Definition process_job (env : Env) (job : Job) (fs : gmap string File)
  : JobResult * gmap string File * list event :=
  match worker env job fs with
  | (Normal out, fs', evs) => (Completed out, fs', evs)
  | (Throw e, fs', evs) => (Failed (message e), fs', evs)
  end.

(** *** The runs of the worker, path by path *)

(** The job's language resolves to the key [key] and the setup block
    leaves [st]. *)
Definition set_up (env : Env) (job : Job) (key : string) (st : Setup) : Prop :=
  to_property_key (job_language job) = Some key ∧
  language_setup (job_language job) (job_code job) (get_language key)
    (uuidv4 env) = Some st.

(** The workspace after [fs.writeFile]. *)
Definition after_write (st : Setup) (code : string) (fs : gmap string File)
  : gmap string File :=
  <[filepath st := {| content := code;
                      mode := match fs !! filepath st with
                              | Some f => mode f
                              | None => DEFAULT_FILE_PERMISSIONS
                              end |}]> fs.

(** The workspace after [fs.writeFile] and [fs.chmod]. *)
Definition with_source (st : Setup) (code : string) (fs : gmap string File)
  : gmap string File :=
  <[filepath st := {| content := code; mode := DEFAULT_FILE_PERMISSIONS |}]> fs.

(** The expanded command of a job with catalog entry [d]. *)
Definition compile_command (d : LangConfig) (st : Setup) (id : string) : string :=
  formatCommand (compileCmd d)
    {| file := containerCodePath st;
       output := "/code/" ++ id ++ ".out";
       classname := className st |}.

(** The clean-up list once the command is known. *)
Definition cleanup_list (language : value) (st : Setup)
  (id compileCommand : string) : list string :=
  if includes compileCommand ("/code/" ++ id ++ ".out")
     && negb (strict_eq_str language "java")
  then (filesToCleanup st ++ [path_join CODE_DIR (id ++ ".out")])%list
  else filesToCleanup st.

Definition stderr_of (res : proc_exit) : string :=
  match res with Exit _ _ err | TimedOut _ err => err end.

Definition exited_ok (res : proc_exit) : bool :=
  match res with Exit 0 _ _ => true | _ => false end.

(** The languages whose stderr output fails the job. *)
Definition compiled_language (language : value) : bool :=
  strict_eq_str language "java" || strict_eq_str language "c"
  || strict_eq_str language "cpp".

(** The message the [catch] block builds from an error of [exec]. *)
Definition rejection_message (cmd err : string) : string :=
  if negb (String.eqb err EmptyString)
  then exec_error_message cmd err ++ String LF ("Stderr:" ++ String LF err)
  else exec_error_message cmd err.

Definition stderr_failure_message (err : string) : string :=
  "Execution potentially failed. Stderr:" ++ String LF err.

(** An event of the clean-up loop over [paths]. *)
Definition cleanup_event (paths : list string) (e : event) : Prop :=
  ∃ p, p ∈ paths ∧ (e = EvStat p ∨ e = EvUnlink p).

Inductive worker_path (env : Env) (job : Job) (fs : gmap string File)
  : completion string * gmap string File * list event → Prop :=
| path_key_throws :
    to_property_key (job_language job) = None →
    worker_path env job fs
      (Throw (Error "Cannot convert object to primitive value"), fs, [])
| path_config_undefined (key : string) :
    to_property_key (job_language job) = Some key →
    language_setup (job_language job) (job_code job) (get_language key)
      (uuidv4 env) = None →
    worker_path env job fs
      (Throw (Error "Cannot read properties of undefined (reading 'ext')"), fs, [])
| path_write_rejects (key : string) (st : Setup) (msg : string) :
    set_up env job key st →
    fs_error env (FsWriteFile (filepath st)) = Some msg →
    worker_path env job fs
      (Throw (Error msg), fs, [EvWriteFile (filepath st) (job_code job)])
| path_chmod_rejects (key : string) (st : Setup) (msg : string) :
    set_up env job key st →
    fs_error env (FsWriteFile (filepath st)) = None →
    fs_error env (FsChmod (filepath st)) = Some msg →
    worker_path env job fs
      (Throw (Error msg), after_write st (job_code job) fs,
       [EvWriteFile (filepath st) (job_code job);
        EvChmod (filepath st) DEFAULT_FILE_PERMISSIONS])
| path_template_undefined (key : string) (st : Setup) (name : string) :
    set_up env job key st →
    fs_error env (FsWriteFile (filepath st)) = None →
    fs_error env (FsChmod (filepath st)) = None →
    get_language key = Inherited name →
    worker_path env job fs
      (Throw (Error "Cannot read properties of undefined (reading 'replaceAll')"),
       with_source st (job_code job) fs,
       [EvWriteFile (filepath st) (job_code job);
        EvChmod (filepath st) DEFAULT_FILE_PERMISSIONS])
| path_template_of_undefined (key : string) (st : Setup) :
    set_up env job key st →
    fs_error env (FsWriteFile (filepath st)) = None →
    fs_error env (FsChmod (filepath st)) = None →
    get_language key = Missing →
    worker_path env job fs
      (Throw (Error "Cannot read properties of undefined (reading 'compileCmd')"),
       with_source st (job_code job) fs,
       [EvWriteFile (filepath st) (job_code job);
        EvChmod (filepath st) DEFAULT_FILE_PERMISSIONS])
| path_exec_rejects (key : string) (st : Setup) (d : LangConfig)
    (res : proc_exit) (fs' : gmap string File) :
    set_up env job key st →
    fs_error env (FsWriteFile (filepath st)) = None →
    fs_error env (FsChmod (filepath st)) = None →
    get_language key = Own d →
    sandbox env (dockerCmd (dockerImage d) (compile_command d st (uuidv4 env)))
      (with_source st (job_code job) fs) = (res, fs') →
    exited_ok res = false →
    worker_path env job fs
      (Throw (Error (rejection_message
                       (dockerCmd (dockerImage d) (compile_command d st (uuidv4 env)))
                       (stderr_of res))),
       fs',
       [EvWriteFile (filepath st) (job_code job);
        EvChmod (filepath st) DEFAULT_FILE_PERMISSIONS;
        EvExec (dockerCmd (dockerImage d) (compile_command d st (uuidv4 env)))
          EXEC_TIMEOUT res])
| path_stderr_fails (key : string) (st : Setup) (d : LangConfig)
    (out err : string) (fs' : gmap string File) :
    set_up env job key st →
    fs_error env (FsWriteFile (filepath st)) = None →
    fs_error env (FsChmod (filepath st)) = None →
    get_language key = Own d →
    sandbox env (dockerCmd (dockerImage d) (compile_command d st (uuidv4 env)))
      (with_source st (job_code job) fs) = (Exit 0 out err, fs') →
    err ≠ EmptyString →
    compiled_language (job_language job) = true →
    worker_path env job fs
      (Throw (Error (stderr_failure_message err)), fs',
       [EvWriteFile (filepath st) (job_code job);
        EvChmod (filepath st) DEFAULT_FILE_PERMISSIONS;
        EvExec (dockerCmd (dockerImage d) (compile_command d st (uuidv4 env)))
          EXEC_TIMEOUT (Exit 0 out err)])
| path_completes (key : string) (st : Setup) (d : LangConfig)
    (out err : string) (fs' fs'' : gmap string File) (evs : list event) :
    set_up env job key st →
    fs_error env (FsWriteFile (filepath st)) = None →
    fs_error env (FsChmod (filepath st)) = None →
    get_language key = Own d →
    sandbox env (dockerCmd (dockerImage d) (compile_command d st (uuidv4 env)))
      (with_source st (job_code job) fs) = (Exit 0 out err, fs') →
    err = EmptyString ∨ compiled_language (job_language job) = false →
    cleanupFiles env
      (cleanup_list (job_language job) st (uuidv4 env)
         (compile_command d st (uuidv4 env))) fs' = (Normal tt, fs'', evs) →
    worker_path env job fs
      (Normal out, fs'',
       ([EvWriteFile (filepath st) (job_code job);
         EvChmod (filepath st) DEFAULT_FILE_PERMISSIONS;
         EvExec (dockerCmd (dockerImage d) (compile_command d st (uuidv4 env)))
           EXEC_TIMEOUT (Exit 0 out err)] ++ evs)%list).

(** The outcomes of a run in which [exec] was called. *)
Definition after_exec (env : Env) (job : Job) (st : Setup) (d : LangConfig)
  (cmd : string) (res : proc_exit) (fs_s : gmap string File)
  (run : completion string * gmap string File * list event) : Prop :=
  let prelude :=
    [EvWriteFile (filepath st) (job_code job);
     EvChmod (filepath st) DEFAULT_FILE_PERMISSIONS;
     EvExec cmd EXEC_TIMEOUT res] in
  (exited_ok res = false ∧
   run = (Throw (Error (rejection_message cmd (stderr_of res))), fs_s, prelude))
  ∨ (∃ out err, res = Exit 0 out err ∧ err ≠ EmptyString ∧
       compiled_language (job_language job) = true ∧
       run = (Throw (Error (stderr_failure_message err)), fs_s, prelude))
  ∨ (∃ out err fs' evs, res = Exit 0 out err ∧
       (err = EmptyString ∨ compiled_language (job_language job) = false) ∧
       cleanupFiles env
         (cleanup_list (job_language job) st (uuidv4 env)
            (compile_command d st (uuidv4 env))) fs_s = (Normal tt, fs', evs) ∧
       run = (Normal out, fs', (prelude ++ evs)%list)).

End App.

(** ** The uuid generator and the shell *)

Module Platform.
Import JsString JsRegExp.

Definition is_hex (c : ascii) : bool := in_range 48 57 c || in_range 97 102 c.

Definition is_dash (c : ascii) : bool := Ascii.eqb c "-".

(** The shape of the text [uuidv4()] returns from position [i] on: dashes
    at the positions 8, 13, 18 and 23, lower-case hexadecimal digits
    elsewhere. *)
Fixpoint uuid_shape (i : nat) (s : string) : bool :=
  match s with
  | EmptyString => true
  | String c r =>
      (if (i =? 8)%nat || (i =? 13)%nat || (i =? 18)%nat || (i =? 23)%nat
       then is_dash c else is_hex c)
      && uuid_shape (S i) r
  end.

Definition is_uuid (s : string) : bool :=
  (String.length s =? 36)%nat && uuid_shape 0 s.

(** The characters the shell gives a meaning to inside a command line:
    blanks, control operators, redirections, quoting, expansion and
    globbing characters. *)
Definition SHELL_META : list ascii :=
  [" "; "009"; "010"; ";"; "&"; "|"; "<"; ">"; "("; ")"; "$"; "`"; "\";
   "034"; "'"; "*"; "?"; "["; "]"; "#"; "~"; "="; "%"; "{"; "}"; "!"]%char.

Definition is_shell_meta (c : ascii) : bool :=
  existsb (Ascii.eqb c) SHELL_META.

End Platform.

(** ** Sample jobs, requests and environments *)

Module Examples.
Import JsString JsValue App.

Definition uuid_a : string := "3b241101-e2bb-4255-8caf-4136c566a962".
Definition uuid_b : string := "9f0c8a52-7d1e-4c3a-b6f4-0a1b2c3d4e5f".

(** An environment in which no file-system call rejects and every
    command ends as [res], leaving the workspace as it found it. *)
Definition quiet_env (id : string) (res : proc_exit) : Env :=
  {| uuidv4 := id;
     fs_error := λ _, None;
     sandbox := λ _ fs, (res, fs) |}.


Definition python_hello : Job :=
  {| job_id := 1; job_language := VStr "python";
     job_code := "print('Hello from Python!')" |}.

Definition node_loop : Job :=
  {| job_id := 2; job_language := VStr "node"; job_code := "while(true){}" |}.

Definition c_warning : Job :=
  {| job_id := 3; job_language := VStr "c";
     job_code := "int main(){ return 0; }" |}.

Definition java_main_one : Job :=
  {| job_id := 4; job_language := VStr "java";
     job_code := "public class Main { public static void main(String[] a){} }" |}.

Definition java_main_two : Job :=
  {| job_id := 5; job_language := VStr "java";
     job_code := "public class Main { static int x; }" |}.

Definition java_greeter : Job :=
  {| job_id := 6; job_language := VStr "java";
     job_code := "public class Greeter { public static void main(String[] a){ } }" |}.

Definition idle_queue : Queue := {| broker_up := true; next_id := 1; jobs := [] |}.
Definition down_queue : Queue := {| broker_up := false; next_id := 1; jobs := [] |}.

Definition python_request : Request :=
  {| req_language := VStr "python"; req_code := VStr "print(1)" |}.

Definition constructor_request : Request :=
  {| req_language := VStr "constructor"; req_code := VStr "x" |}.

Definition brainfuck_request : Request :=
  {| req_language := VStr "brainfuck"; req_code := VStr "+" |}.

End Examples.

(** ** Paths in the trace of a run *)

Module Traces.
Import JsString App.

(** The path a file-system call of the trace is about. *)
Definition event_path (e : event) : option string :=
  match e with
  | EvWriteFile p _ | EvChmod p _ | EvStat p | EvUnlink p => Some p
  | EvExec _ _ _ => None
  end.

Definition is_slash (c : ascii) : bool := Ascii.eqb c "/".

(** A file name that stays in its directory: it holds no slash and does
    not start with a dot. *)
Definition safe_segment (name : string) : bool :=
  match name with
  | EmptyString => false
  | String c _ =>
      negb (Ascii.eqb c ".") && all_chars (λ c, negb (is_slash c)) name
  end.

End Traces.

(** ** More sample jobs and environments *)

Module MoreExamples.
Import JsString JsValue App.


Definition constructor_job : Job :=
  {| job_id := 7; job_language := VStr "constructor"; job_code := "x" |}.

Definition wrapped_java_job : Job :=
  {| job_id := 8; job_language := VArr [VStr "java"];
     job_code := "public class Greeter { }" |}.


End MoreExamples.

(** ** GET /results/:jobId *)

Module Results.
Import JsString JsValue App.

(** A job as [codeQueue.getJob] hands it to the route: its id, what
    [job.getState()] resolves with ([None] when that call rejects), and
    the two fields BullMQ fills when it settles the job. *)
Record StoredJob : Type := {
  stored_id : string;
  stored_state : option string;
  stored_returnvalue : string;
  stored_failedReason : string
}.

(** The object [response] of the route. [jobId] and [state] are set when
    it is built; [output] and [error] are set in one case of the [switch]
    each, and [message] in every case. *)
Record ResultBody : Type := {
  res_jobId : string;
  res_state : string;
  res_output : option string;
  res_error : option string;
  res_message : string
}.

(** [res.status(n).json({ error })], or [res.json(response)], which
    sends the status 200. *)
Inductive result_reply : Type :=
| ResultError (status : nat) (error : string)
| ResultOk (response : ResultBody).

(** The route. [getJob] is [codeQueue.getJob]: [None] when the call
    rejects, [Some None] when the broker holds no such job. *)
Definition get_results (getJob : string → option (option StoredJob))
  (jobId : string) : result_reply :=
  if negb (truthy (VStr jobId)) then ResultError 400 "Missing Job ID"
  else
    match getJob jobId with
    | None => ResultError 500 "Failed to fetch job result"
    | Some None => ResultError 404 "Job not found"
    | Some (Some job) =>
        match stored_state job with
        | None => ResultError 500 "Failed to fetch job result"
        | Some state =>
            let response (output error : option string) (message : string) :=
              {| res_jobId := stored_id job; res_state := state;
                 res_output := output; res_error := error;
                 res_message := message |} in
            if String.eqb state "completed" then
              ResultOk (response (Some (stored_returnvalue job)) None
                          ("Job ID " ++ jobId ++ " completed"))
            else if String.eqb state "failed" then
              ResultOk (response None (Some (stored_failedReason job))
                          ("Job ID " ++ jobId ++ " failed execution"))
            else if String.eqb state "active" then
              ResultOk (response None None "Job is currently being processed.")
            else if String.eqb state "waiting" || String.eqb state "delayed" then
              ResultOk (response None None "Job is waiting to be processed.")
            else
              ResultOk (response None None ("Job is in state: " ++ state))
        end
    end.

(** The id of a job as BullMQ writes it: the decimal digits of its
    number. *)
Definition id_text (n : nat) : string :=
  NilZero.string_of_uint (Nat.to_uint n).

(** The job in the broker once the worker is done with it: BullMQ moves
    it to [completed] and keeps the value the processor resolved with, or
    to [failed] and keeps the message of the error. The field the route
    does not read in a state is left empty. *)
Definition settle (job : Job) (r : JobResult) : StoredJob :=
  match r with
  | Completed out =>
      {| stored_id := id_text (job_id job); stored_state := Some "completed";
         stored_returnvalue := out; stored_failedReason := EmptyString |}
  | Failed reason =>
      {| stored_id := id_text (job_id job); stored_state := Some "failed";
         stored_returnvalue := EmptyString; stored_failedReason := reason |}
  end.

(** A broker that holds the one job [job] under its id. *)
Definition broker_with (job : StoredJob) (jobId : string)
  : option (option StoredJob) :=
  if String.eqb jobId (stored_id job) then Some (Some job) else Some None.

End Results.

(** * Properties *)

(** ** Strings *)

Module JsStringFacts.
Import JsString.

Lemma append_nil_r (s : string) : s +:+ EmptyString = s.
Proof. induction s as [|c s IH]; simpl; [done | by rewrite IH]. Qed.

Lemma append_assoc (a b c : string) : (a +:+ b) +:+ c = a +:+ (b +:+ c).
Proof. induction a as [|x a IH]; simpl; [done | by rewrite IH]. Qed.

Lemma length_append (a b : string) :
  String.length (a +:+ b) = (String.length a + String.length b)%nat.
Proof. induction a as [|x a IH]; simpl; [done | by rewrite IH]. Qed.

Lemma all_chars_append (p : ascii → bool) (a b : string) :
  all_chars p (a +:+ b) = all_chars p a && all_chars p b.
Proof.
  induction a as [|x a IH]; simpl; [done |].
  by rewrite IH, andb_assoc.
Qed.

Lemma all_chars_impl (p q : ascii → bool) (s : string) :
  (∀ c, p c = true → q c = true) → all_chars p s = true → all_chars q s = true.
Proof.
  intros Hpq. induction s as [|c s IH]; simpl; [done |].
  intros [Hc Hs]%andb_true_iff. rewrite (Hpq _ Hc). by apply IH.
Qed.

Lemma starts_with_append (p s : string) : starts_with p (p +:+ s) = true.
Proof.
  induction p as [|a p IH]; simpl; [done |].
  by rewrite Ascii.eqb_refl, IH.
Qed.

Lemma starts_with_split (p s : string) :
  starts_with p s = true → ∃ r, s = p +:+ r.
Proof.
  revert s. induction p as [|a p IH]; intros s; simpl.
  - intros _. by exists s.
  - destruct s as [|b s]; [done |].
    intros [Hab Hps]%andb_true_iff.
    apply Ascii.eqb_eq in Hab as ->.
    destruct (IH _ Hps) as [r ->]. by exists r.
Qed.

Lemma starts_with_same_head (u p s : string) :
  starts_with (u +:+ p) (u +:+ s) = starts_with p s.
Proof.
  induction u as [|a u IH]; simpl; [done |].
  by rewrite Ascii.eqb_refl, IH.
Qed.

Lemma includes_here (p s : string) : includes (p +:+ s) p = true.
Proof.
  destruct p as [|a p]; destruct s as [|b s]; simpl;
    rewrite ?Ascii.eqb_refl, ?starts_with_append; done.
Qed.

Lemma includes_later (u s p : string) :
  includes s p = true → includes (u +:+ s) p = true.
Proof.
  intros H. induction u as [|a u IH]; simpl; [done |].
  rewrite IH. apply orb_true_r.
Qed.

Lemma includes_empty (s : string) : includes s EmptyString = true.
Proof. by destruct s. Qed.

(** A text without dollar signs is inserted as it is. *)
Lemma get_substitution_no_dollar (matched before after rep : string) :
  no_dollar rep = true → get_substitution matched before after rep = rep.
Proof.
  induction rep as [|c rep IH]; simpl; [done |].
  unfold no_dollar in *. simpl. unfold is_dollar at 1.
  intros [Hc Hrep]%andb_true_iff.
  apply negb_true_iff in Hc. rewrite Hc. by rewrite IH.
Qed.

Lemma replace_scan_plain (pat rep before : string) (skip : nat) (s : string) :
  no_dollar rep = true →
  replace_scan pat rep before skip s = replace_plain pat rep skip s.
Proof.
  intros Hrep. revert before skip.
  induction s as [|c s IH]; intros before skip; simpl; [done |].
  destruct skip as [|k]; [| by rewrite IH].
  rewrite !IH, get_substitution_no_dollar by done. done.
Qed.

Lemma replaceAll_plain (s pat rep : string) :
  pat ≠ EmptyString → no_dollar rep = true →
  replaceAll s pat rep = replace_plain pat rep 0 s.
Proof.
  intros Hpat Hrep. unfold replaceAll.
  destruct pat; [done |]. by apply replace_scan_plain.
Qed.

(** Stepping over the rest of a match. *)
Lemma replace_plain_skip (pat rep u s : string) :
  replace_plain pat rep (String.length u) (u +:+ s) = replace_plain pat rep 0 s.
Proof. induction u as [|a u IH]; simpl; done. Qed.

Lemma replace_plain_here (pat rep s : string) :
  pat ≠ EmptyString →
  replace_plain pat rep 0 (pat +:+ s) = rep +:+ replace_plain pat rep 0 s.
Proof.
  destruct pat as [|a p]; [done |]. intros _.
  change (String a p +:+ s) with (String a (p +:+ s)).
  cbn [replace_plain].
  change (String a (p +:+ s)) with (String a p +:+ s).
  rewrite starts_with_append.
  replace (String.length (String a p) - 1)%nat with (String.length p)
    by (cbn [String.length]; lia).
  by rewrite replace_plain_skip.
Qed.

Lemma replace_plain_keep (pat rep : string) (c : ascii) (s : string) :
  starts_with pat (String c s) = false →
  replace_plain pat rep 0 (String c s) = String c (replace_plain pat rep 0 s).
Proof. intros H. cbn [replace_plain]. by rewrite H. Qed.

(** A run of code units none of which opens the search string is copied. *)
Lemma replace_plain_free (a : ascii) (p rep u s : string) :
  all_chars (λ c, negb (Ascii.eqb a c)) u = true →
  replace_plain (String a p) rep 0 (u +:+ s)
  = u +:+ replace_plain (String a p) rep 0 s.
Proof.
  induction u as [|c u IH]; [done |].
  cbn [all_chars]. intros [Hc Hu]%andb_true_iff.
  change (String c u +:+ s) with (String c (u +:+ s)).
  rewrite replace_plain_keep.
  - rewrite IH by done. done.
  - cbn [starts_with]. apply negb_true_iff in Hc. by rewrite Hc.
Qed.

(** The scan replaces every occurrence, from left to right. *)
Lemma replace_plain_replaced (pat rep s : string) :
  pat ≠ EmptyString → replaced pat rep s (replace_plain pat rep 0 s).
Proof.
  intros Hpat.
  remember (String.length s) as n eqn:Hn.
  revert s Hn. induction (lt_wf n) as [n _ IH]. intros s ->.
  destruct s as [|c s]; [constructor |].
  destruct (starts_with pat (String c s)) eqn:Hsw.
  - destruct (starts_with_split _ _ Hsw) as [r Hr]. rewrite Hr.
    rewrite replace_plain_here by done. constructor.
    apply (IH (String.length r)); [| done].
    rewrite Hr, length_append.
    destruct pat; [done |]. cbn [String.length]. lia.
  - rewrite replace_plain_keep by done. constructor; [done |].
    apply (IH (String.length s)); [cbn [String.length]; lia | done].
Qed.

(** The relation determines its result. *)
Lemma replaced_functional (pat rep s t1 t2 : string) :
  pat ≠ EmptyString →
  replaced pat rep s t1 → replaced pat rep s t2 → t1 = t2.
Proof.
  intros Hpat H1. revert t2.
  induction H1 as [|s t H1 IH|c s t Hsw H1 IH]; intros t2 H2.
  - inversion H2 as [|s' t' H' Heq|]; [done |].
    destruct pat; [done | discriminate].
  - pose proof (starts_with_append pat s) as Hhere.
    inversion H2 as [Heq|s' t' H' Heq|c s' t' Hsw' H' Heq].
    + destruct pat; [done | discriminate].
    + apply String.app_inj in Heq as ->. by rewrite (IH _ H').
    + congruence.
  - inversion H2 as [|s' t' H' Heq|c' s' t' Hsw' H' Heq]; subst.
    + pose proof (starts_with_append pat s') as Hhere. congruence.
    + by rewrite (IH _ H').
Qed.

End JsStringFacts.

(** ** Regular expressions *)

Module JsRegExpFacts.
Import JsString JsStringFacts JsRegExp.

Lemma space_not_ident_start (c : ascii) :
  is_space c = true → is_ident_start c = false.
Proof. destruct c as [[] [] [] [] [] [] [] []]; done. Qed.

Lemma ident_start_is_char (c : ascii) :
  is_ident_start c = true → is_ident_char c = true.
Proof. unfold is_ident_char. by intros ->. Qed.

Lemma strip_prefix_Some (p s r : string) :
  strip_prefix p s = Some r ↔ s = p +:+ r.
Proof.
  revert s. induction p as [|a p IH]; intros s; simpl.
  - split; congruence.
  - destruct s as [|b s]; [split; discriminate |].
    destruct (Ascii.eqb_spec a b) as [->|Hne].
    + rewrite IH. split; congruence.
    + split; [discriminate | congruence].
Qed.

Lemma take_drop_while (p : ascii → bool) (s : string) :
  take_while p s +:+ drop_while p s = s.
Proof.
  induction s as [|c s IH]; simpl; [done |].
  destruct (p c); simpl; [by rewrite IH | done].
Qed.

Lemma all_chars_take_while (p : ascii → bool) (s : string) :
  all_chars p (take_while p s) = true.
Proof.
  induction s as [|c s IH]; simpl; [done |].
  destruct (p c) eqn:Hc; simpl; [by rewrite Hc, IH | done].
Qed.

Lemma drop_while_head (p : ascii → bool) (s : string) :
  match drop_while p s with
  | EmptyString => True
  | String c _ => p c = false
  end.
Proof.
  induction s as [|c s IH]; simpl; [done |].
  destruct (p c) eqn:Hc; [done | by simpl].
Qed.

Lemma drop_while_append (p : ascii → bool) (u s : string) :
  all_chars p u = true → drop_while p (u +:+ s) = drop_while p s.
Proof.
  induction u as [|c u IH]; simpl; [done |].
  intros [-> Hu]%andb_true_iff. by apply IH.
Qed.

Lemma take_while_append (p : ascii → bool) (u s : string) :
  all_chars p u = true → take_while p (u +:+ s) = u +:+ take_while p s.
Proof.
  induction u as [|c u IH]; simpl; [done |].
  intros [-> Hu]%andb_true_iff. by rewrite IH.
Qed.

Lemma drop_while_stop (p : ascii → bool) (s : string) :
  match s with EmptyString => True | String c _ => p c = false end →
  drop_while p s = s.
Proof. destruct s as [|c s]; simpl; [done | by intros ->]. Qed.

Lemma take_while_stop (p : ascii → bool) (s : string) :
  match s with EmptyString => True | String c _ => p c = false end →
  take_while p s = EmptyString.
Proof. destruct s as [|c s]; simpl; [done | by intros ->]. Qed.

Lemma take_string_append (u s : string) :
  take_string (String.length u) (u +:+ s) = u.
Proof. induction u as [|c u IH]; simpl; [by destruct s | by rewrite IH]. Qed.

(** The text consumed between a position and a later one. *)
Lemma consumed_append (u s : string) : consumed (u +:+ s) s = u.
Proof.
  unfold consumed. rewrite length_append.
  replace (String.length u + String.length s - String.length s)%nat
    with (String.length u) by lia.
  apply take_string_append.
Qed.

(** When the continuation succeeds after the longest run, greedy
    repetition takes the longest run. *)
Lemma star_class_longest {A : Type} (p : ascii → bool) (s : string)
  (k : string → option A) (x : A) :
  k (drop_while p s) = Some x → star_class p s k = Some x.
Proof.
  induction s as [|c s IH]; simpl; [done |].
  destruct (p c); [| done]. intros H. by rewrite (IH H).
Qed.

(** When the continuation fails on every text that starts inside the
    class, giving code units back does not help. *)
Lemma star_class_commit {A : Type} (p : ascii → bool) (s : string)
  (k : string → option A) :
  (∀ c r, p c = true → k (String c r) = None) →
  star_class p s k = k (drop_while p s).
Proof.
  intros Hk. induction s as [|c s IH]; simpl; [done |].
  destruct (p c) eqn:Hc; [| done].
  rewrite IH. destruct (k (drop_while p s)); [done |]. by apply Hk.
Qed.

End JsRegExpFacts.

(** ** The class-name pattern *)

Module ClassNameFacts.
Import JsString JsStringFacts JsRegExp JsRegExpFacts App.

Lemma consumed_ident (c : ascii) (r : string) :
  consumed (String c r) (drop_while is_ident_char r)
  = String c (take_while is_ident_char r).
Proof.
  rewrite <- (take_drop_while is_ident_char r) at 1.
  change (String c (take_while is_ident_char r +:+ drop_while is_ident_char r))
    with (String c (take_while is_ident_char r) +:+ drop_while is_ident_char r).
  apply consumed_append.
Qed.

(** The backtracking matcher on [CLASS_RE] computes the greedy reading:
    no backtracking step can succeed. *)
Lemma run_class_re {A : Type} (s : string)
  (k : string → list string → option A) :
  (∀ rest caps, is_Some (k rest caps)) →
  run CLASS_RE s [] k
  = match class_at s with
    | Some (cls, rest) => k rest [cls]
    | None => None
    end.
Proof.
  intros Hk. unfold CLASS_RE, class_at. cbn [run].
  destruct (strip_prefix "public" s) as [[|c1 r1]|]; [done | | done].
  destruct (is_space c1); [| done].
  rewrite star_class_commit.
  2:{ intros c r Hc. cbn [strip_prefix].
      destruct (Ascii.eqb_spec "c" c) as [<-|]; done. }
  destruct (strip_prefix "class" (drop_while is_space r1)) as [[|c2 r2]|];
    [done | | done].
  destruct (is_space c2); [| done].
  rewrite star_class_commit.
  2:{ intros c r Hc. by rewrite (space_not_ident_start _ Hc). }
  destruct (drop_while is_space r2) as [|c3 r3]; [done |].
  destruct (is_ident_start c3); [| done].
  destruct (Hk (drop_while is_ident_char r3) [String c3 (take_while is_ident_char r3)])
    as [x Hx].
  rewrite Hx. apply star_class_longest.
  by rewrite consumed_ident.
Qed.

(** What [class_at] returns is an identifier. *)
Lemma class_at_identifier (s cls rest : string) :
  class_at s = Some (cls, rest) → is_identifier cls = true.
Proof.
  unfold class_at.
  destruct (strip_prefix "public" s) as [[|c1 r1]|]; [done | | done].
  destruct (is_space c1); [| done].
  destruct (strip_prefix "class" (drop_while is_space r1)) as [[|c2 r2]|];
    [done | | done].
  destruct (is_space c2); [| done].
  destruct (drop_while is_space r2) as [|c3 r3]; [done |].
  destruct (is_ident_start c3) eqn:Hc3; [| done].
  intros [= <- <-]. simpl. by rewrite Hc3, all_chars_take_while.
Qed.

(** The greedy reading is a declared class, and the text it leaves starts
    where the match ends. *)
Lemma class_at_declared (s cls rest : string) :
  class_at s = Some (cls, rest) →
  ∃ whole, s = whole +:+ rest ∧ class_declared s whole cls.
Proof.
  unfold class_at.
  destruct (strip_prefix "public" s) as [[|c1 r1]|] eqn:H1; [done | | done].
  destruct (is_space c1) eqn:Hc1; [| done].
  destruct (strip_prefix "class" (drop_while is_space r1)) as [[|c2 r2]|] eqn:H2;
    [done | | done].
  destruct (is_space c2) eqn:Hc2; [| done].
  destruct (drop_while is_space r2) as [|c3 r3] eqn:H3; [done |].
  destruct (is_ident_start c3) eqn:Hc3; [| done].
  intros [= <- <-].
  apply strip_prefix_Some in H1, H2.
  set (w1 := String c1 (take_while is_space r1)).
  set (w2 := String c2 (take_while is_space r2)).
  set (cls := String c3 (take_while is_ident_char r3)).
  assert (Hs : s = ("public" +:+ w1 +:+ "class" +:+ w2 +:+ cls)
                   +:+ drop_while is_ident_char r3).
  { rewrite H1. subst w1 w2 cls.
    rewrite <- (take_drop_while is_space r1) at 1. rewrite H2.
    rewrite <- (take_drop_while is_space r2) at 1. rewrite H3.
    rewrite <- (take_drop_while is_ident_char r3) at 1.
    simpl. rewrite !append_assoc. simpl. rewrite !append_assoc. done. }
  exists ("public" +:+ w1 +:+ "class" +:+ w2 +:+ cls). split; [done |].
  exists w1, w2, (drop_while is_ident_char r3).
  repeat split; try done.
  - subst w1. simpl. by rewrite Hc1, all_chars_take_while.
  - subst w2. simpl. by rewrite Hc2, all_chars_take_while.
  - subst cls. simpl. by rewrite Hc3, all_chars_take_while.
  - apply drop_while_head.
Qed.

Lemma ident_start_not_space (c : ascii) :
  is_ident_start c = true → is_space c = false.
Proof.
  intros H. destruct (is_space c) eqn:Hs; [| done].
  by rewrite (space_not_ident_start _ Hs) in H.
Qed.

Lemma identifier_inv (cls : string) :
  is_identifier cls = true →
  ∃ c r, cls = String c r ∧ is_ident_start c = true
         ∧ all_chars is_ident_char r = true.
Proof.
  destruct cls as [|c r]; [done |]. simpl.
  intros [Hc Hr]%andb_true_iff. by exists c, r.
Qed.

Lemma identifier_all_chars (cls : string) :
  is_identifier cls = true → all_chars is_ident_char cls = true.
Proof.
  intros (c & r & -> & Hc & Hr)%identifier_inv. simpl.
  by rewrite (ident_start_is_char _ Hc), Hr.
Qed.

(** Every declared class at the start of the text is the one the greedy
    reading finds. *)
Lemma declared_class_at (s whole cls : string) :
  class_declared s whole cls →
  ∃ rest, s = whole +:+ rest ∧ class_at s = Some (cls, rest).
Proof.
  intros (w1 & w2 & rest & Hs & Hwhole & Hw1 & Hsp1 & Hw2 & Hsp2 & Hid & Hrest).
  exists rest. split; [done |].
  destruct w1 as [|c1 w1]; [done |]. destruct w2 as [|c2 w2]; [done |].
  simpl in Hsp1, Hsp2.
  apply andb_true_iff in Hsp1 as [Hc1 Hsp1].
  apply andb_true_iff in Hsp2 as [Hc2 Hsp2].
  destruct (identifier_inv _ Hid) as (c3 & r3 & -> & Hc3 & Hr3).
  unfold class_at. rewrite Hs, Hwhole.
  simpl. rewrite !append_assoc. simpl. rewrite Hc1.
  rewrite drop_while_append by done. simpl.
  rewrite !append_assoc. simpl. rewrite Hc2.
  rewrite drop_while_append by done. simpl.
  rewrite (ident_start_not_space _ Hc3), Hc3.
  rewrite take_while_append, drop_while_append by done.
  rewrite take_while_stop, drop_while_stop by done.
  by rewrite append_nil_r.
Qed.

(** [regexp_exec] on the pattern: the match is a declared class, and no
    position before it holds one. *)
Lemma regexp_exec_class_Some (code : string) (m : list string) :
  regexp_exec CLASS_RE code = Some m →
  ∃ pre post whole cls,
    code = pre +:+ post ∧ m = [whole; cls] ∧ class_declared post whole cls ∧
    ∀ pre' post', code = pre' +:+ post' →
      (String.length pre' < String.length pre)%nat → class_at post' = None.
Proof.
  induction code as [|c code IH].
  - cbn [regexp_exec]. rewrite run_class_re by eauto. done.
  - cbn [regexp_exec]. rewrite run_class_re by eauto.
    destruct (class_at (String c code)) as [[cls rest]|] eqn:Hat.
    + intros [= <-].
      destruct (class_at_declared _ _ _ Hat) as (whole & Hs & Hdecl).
      exists EmptyString, (String c code), whole, cls.
      repeat split; try done.
      * rewrite Hs at 1. by rewrite consumed_append.
      * intros pre' post' _ Hlt. simpl in Hlt. lia.
    + intros Hm. destruct (IH Hm) as (pre & post & whole & cls & -> & -> & Hd & Hleft).
      exists (String c pre), post, whole, cls. repeat split; try done.
      intros pre' post' Heq Hlt.
      destruct pre' as [|c' pre']; simpl in Heq.
      * by subst post'.
      * injection Heq as -> Heq. apply (Hleft pre' post' Heq).
        simpl in Hlt. lia.
Qed.

(** No match means that no position of the text holds a declared class. *)
Lemma regexp_exec_class_None (code : string) :
  regexp_exec CLASS_RE code = None →
  ∀ pre post whole cls, code = pre +:+ post → ¬ class_declared post whole cls.
Proof.
  induction code as [|c code IH]; cbn [regexp_exec];
    rewrite run_class_re by eauto.
  - destruct (class_at EmptyString) as [[cls rest]|] eqn:Hat; [done |].
    intros _ pre post whole cls Heq Hd.
    destruct pre; [| done]. simpl in Heq. subst post.
    destruct (declared_class_at _ _ _ Hd) as (rest & _ & Hat'). congruence.
  - destruct (class_at (String c code)) as [[cls rest]|] eqn:Hat; [done |].
    intros Hm pre post whole cls Heq Hd.
    destruct pre as [|c' pre]; simpl in Heq.
    + subst post.
      destruct (declared_class_at _ _ _ Hd) as (rest & _ & Hat'). congruence.
    + injection Heq as -> Heq. by apply (IH Hm pre post whole cls).
Qed.

(** The class name of the Java branch is the first capture when the
    pattern matches and the default otherwise; it is an identifier in
    both cases. *)
Lemma java_class_name_spec (code : string) :
  (∃ whole cls, regexp_exec CLASS_RE code = Some [whole; cls]
                ∧ java_class_name code = cls)
  ∨ (regexp_exec CLASS_RE code = None ∧ java_class_name code = "Main").
Proof.
  unfold java_class_name.
  destruct (regexp_exec CLASS_RE code) as [m|] eqn:Hm; [| by right].
  left. destruct (regexp_exec_class_Some _ _ Hm)
    as (pre & post & whole & cls & _ & -> & Hd & _).
  exists whole, cls. split; [done |]. simpl.
  destruct Hd as (_ & _ & _ & _ & _ & _ & _ & _ & _ & Hid & _).
  by destruct cls.
Qed.

Lemma java_class_name_identifier (code : string) :
  is_identifier (java_class_name code) = true.
Proof.
  destruct (java_class_name_spec code) as [(whole & cls & Hm & ->)|[_ ->]]; [| done].
  destruct (regexp_exec_class_Some _ _ Hm)
    as (pre & post & whole' & cls' & _ & [= <- <-] & Hd & _).
  by destruct Hd as (_ & _ & _ & _ & _ & _ & _ & _ & _ & Hid & _).
Qed.

End ClassNameFacts.

(** ** The worker *)

Module WorkerFacts.
Import JsString JsStringFacts JsValue JsRegExp JsRegExpFacts App.

(** One round of the clean-up loop. *)
Lemma cleanup_round (env : Env) (p : string) (fs : gmap string File) :
  ∃ fs' evs,
    try_catch
      (let* found := stat_exists p in
       if found then unlink env p else ret tt)
      (λ _, ret tt) fs = (Normal tt, fs', evs)
    ∧ (fs' = fs ∨ fs' = delete p fs)
    ∧ (fs_error env (FsUnlink p) = None → fs' !! p = None)
    ∧ Forall (cleanup_event [p]) evs.
Proof.
  assert (Hin : p ∈ [p]) by apply list_elem_of_here.
  unfold try_catch, bind, stat_exists, unlink, ret.
  destruct (fs !! p) as [f|] eqn:Hp.
  - rewrite bool_decide_eq_true_2 by eauto. rewrite Hp.
    destruct (fs_error env (FsUnlink p)) as [msg|] eqn:Herr.
    + eexists _, _. split; [done |]. split; [by left |]. split; [done |].
      repeat constructor; exists p; eauto.
    + eexists _, _. split; [done |]. split; [by right |].
      split; [intros _; apply lookup_delete_eq |].
      repeat constructor; exists p; eauto.
  - rewrite bool_decide_eq_false_2 by (intros [? ?]; congruence).
    eexists _, _. split; [done |]. split; [by left |]. split; [done |].
    repeat constructor; exists p; eauto.
Qed.

(** [cleanupFiles] never throws; it only looks at and unlinks the paths
    it is given, adds nothing to the workspace, and leaves none of the
    paths behind unless [fs.unlink] rejected on it. *)
Lemma cleanupFiles_spec (env : Env) (paths : list string) (fs : gmap string File) :
  ∃ fs' evs,
    cleanupFiles env paths fs = (Normal tt, fs', evs)
    ∧ (∀ q, fs' !! q = fs !! q ∨ (q ∈ paths ∧ fs' !! q = None))
    ∧ (∀ p, p ∈ paths → fs_error env (FsUnlink p) = None → fs' !! p = None)
    ∧ Forall (cleanup_event paths) evs.
Proof.
  revert fs. induction paths as [|p paths IH]; intros fs.
  - exists fs, []. cbn. repeat split; [by left | | done].
    intros p Hp. by apply elem_of_nil in Hp.
  - cbn [cleanupFiles]. unfold bind at 1.
    destruct (cleanup_round env p fs) as (fs1 & ev1 & -> & Hfs1 & Hgone & Hev1).
    destruct (IH fs1) as (fs2 & ev2 & -> & Hframe & Hgone2 & Hev2).
    exists fs2, (ev1 ++ ev2)%list. split; [done |].
    assert (Hstep : ∀ q, fs1 !! q = fs !! q ∨ (q = p ∧ fs1 !! q = None)).
    { intros q. destruct Hfs1 as [->| ->]; [by left |].
      destruct (decide (p = q)) as [<-|Hne].
      - right. split; [done | apply lookup_delete_eq].
      - left. by apply lookup_delete_ne. }
    split; [| split].
    + intros q. destruct (Hframe q) as [Hq|[Hin Hq]].
      * rewrite Hq. destruct (Hstep q) as [?|[-> ?]]; [by left |].
        right. split; [apply list_elem_of_here | done].
      * right. split; [by apply list_elem_of_further | done].
    + intros q Hq Herr. apply elem_of_cons in Hq as [->|Hq].
      * destruct (Hframe p) as [Hp|[_ Hp]]; [| done].
        rewrite Hp. by apply Hgone.
      * by apply Hgone2.
    + apply Forall_app. split.
      * eapply Forall_impl; [exact Hev1 |].
        intros e (q & Hq & He). exists q. split; [| done].
        apply list_elem_of_singleton in Hq as ->. apply list_elem_of_here.
      * eapply Forall_impl; [exact Hev2 |].
        intros e (q & Hq & He). exists q. split; [| done].
        by apply list_elem_of_further.
Qed.

(** Every run of the worker follows one of the paths. *)
Lemma worker_path_complete (env : Env) (job : Job) (fs : gmap string File) :
  worker_path env job fs (worker env job fs).
Proof.
  unfold worker.
  destruct (to_property_key (job_language job)) as [key|] eqn:Hkey;
    [| by apply path_key_throws].
  destruct (language_setup (job_language job) (job_code job) (get_language key)
              (uuidv4 env)) as [st|] eqn:Hst;
    [| by eapply path_config_undefined].
  assert (Hup : set_up env job key st) by done.
  unfold try_catch, bind at 1, writeFile.
  destruct (fs_error env (FsWriteFile (filepath st))) as [msg|] eqn:Hw.
  { cbn. by eapply path_write_rejects. }
  fold (after_write st (job_code job) fs).
  unfold bind at 1, chmod.
  destruct (fs_error env (FsChmod (filepath st))) as [msg|] eqn:Hc.
  { cbn. by eapply path_chmod_rejects. }
  unfold after_write at 1. rewrite lookup_insert_eq.
  unfold after_write. rewrite insert_insert_eq. cbn [content].
  fold (with_source st (job_code job) fs).
  unfold bind at 1, format_compile_command.
  destruct (get_language key) as [d|name|] eqn:Hcfg.
  2:{ cbn. by eapply path_template_undefined. }
  2:{ cbn. by eapply path_template_of_undefined. }
  unfold ret at 1. cbn [image_text].
  fold (compile_command d st (uuidv4 env)).
  fold (cleanup_list (job_language job) st (uuidv4 env)
          (compile_command d st (uuidv4 env))).
  set (cmd := dockerCmd (dockerImage d) (compile_command d st (uuidv4 env))).
  unfold bind at 1, exec.
  destruct (sandbox env cmd (with_source st (job_code job) fs)) as [res fs'] eqn:Hrun.
  destruct (exited_ok res) eqn:Hok.
  - destruct res as [[| |] out err|]; try discriminate Hok.
    fold (compiled_language (job_language job)).
    unfold bind at 1.
    destruct (String.eqb_spec err EmptyString) as [->|Herr]; cbn [negb].
    + unfold ret at 1.
      destruct (cleanupFiles_spec env
                  (cleanup_list (job_language job) st (uuidv4 env)
                     (compile_command d st (uuidv4 env))) fs')
        as (fs'' & evs & Hclean & _).
      unfold bind, ret. rewrite Hclean. cbn.
      rewrite app_nil_r.
      eapply path_completes; eauto.
    + destruct (compiled_language (job_language job)) eqn:Hlang.
      * cbn. by eapply path_stderr_fails.
      * unfold ret at 1.
        destruct (cleanupFiles_spec env
                    (cleanup_list (job_language job) st (uuidv4 env)
                       (compile_command d st (uuidv4 env))) fs')
          as (fs'' & evs & Hclean & _).
        unfold bind, ret. rewrite Hclean. cbn.
        rewrite app_nil_r.
        eapply path_completes; eauto.
  - pose proof (path_exec_rejects env job fs key st d res fs' Hup Hw Hc Hcfg Hrun Hok)
      as Hpath.
    destruct res as [[| |] out err|out err]; try discriminate Hok; exact Hpath.
Qed.

Lemma process_job_worker (env : Env) (job : Job) (fs : gmap string File) :
  ∃ r fs' evs,
    worker env job fs = (r, fs', evs) ∧ worker_path env job fs (r, fs', evs) ∧
    process_job env job fs
    = (match r with Normal out => Completed out | Throw e => Failed (message e) end,
       fs', evs).
Proof.
  pose proof (worker_path_complete env job fs) as Hpath.
  unfold process_job.
  destruct (worker env job fs) as [[r fs'] evs].
  exists r, fs', evs. by destruct r.
Qed.

Lemma cleanup_event_not_exec (paths : list string) (evs : list event)
  (cmd : string) (t : N) (res : proc_exit) :
  Forall (cleanup_event paths) evs → EvExec cmd t res ∉ evs.
Proof.
  intros Hall Hin. rewrite Forall_forall in Hall.
  destruct (Hall _ Hin) as (p & _ & [?|?]); discriminate.
Qed.

Lemma cleanup_events (env : Env) (paths : list string)
  (fs fs' : gmap string File) (evs : list event) :
  cleanupFiles env paths fs = (Normal tt, fs', evs) →
  Forall (cleanup_event paths) evs.
Proof.
  intros H. destruct (cleanupFiles_spec env paths fs) as (fs1 & ev1 & H1 & _ & _ & Hev).
  congruence.
Qed.

(** A run that called [exec] got through the setup, wrote the source,
    found a catalog entry, and ended in one of three ways. *)
Lemma exec_event_inv (env : Env) (job : Job) (fs : gmap string File)
  (run : completion string * gmap string File * list event)
  (cmd : string) (t : N) (res : proc_exit) :
  worker_path env job fs run → EvExec cmd t res ∈ run.2 →
  ∃ key st d fs_s,
    set_up env job key st ∧ get_language key = Own d ∧
    cmd = dockerCmd (dockerImage d) (compile_command d st (uuidv4 env)) ∧
    t = EXEC_TIMEOUT ∧
    sandbox env cmd (with_source st (job_code job) fs) = (res, fs_s) ∧
    after_exec env job st d cmd res fs_s run.
Proof.
  intros Hpath Hin.
  destruct Hpath as [?|?|?|?|?|?
    |key st d res' fs' Hup Hw Hc Hcfg Hrun Hok
    |key st d out err fs' Hup Hw Hc Hcfg Hrun Herr Hlang
    |key st d out err fs' fs'' evs Hup Hw Hc Hcfg Hrun Herr Hclean];
    cbn [snd] in Hin;
    try (by repeat (apply elem_of_cons in Hin as [Hin|Hin]; [discriminate |]);
            apply elem_of_nil in Hin).
  - assert (Heq : EvExec cmd t res = EvExec
        (dockerCmd (dockerImage d) (compile_command d st (uuidv4 env)))
        EXEC_TIMEOUT res').
    { repeat (apply elem_of_cons in Hin as [Hin|Hin]; [try discriminate |]);
        [done | by apply elem_of_nil in Hin]. }
    injection Heq as -> -> ->.
    exists key, st, d, fs'. do 5 (split; [done |]).
    unfold after_exec; cbn zeta. by left.
  - assert (Heq : EvExec cmd t res = EvExec
        (dockerCmd (dockerImage d) (compile_command d st (uuidv4 env)))
        EXEC_TIMEOUT (Exit 0 out err)).
    { repeat (apply elem_of_cons in Hin as [Hin|Hin]; [try discriminate |]);
        [done | by apply elem_of_nil in Hin]. }
    injection Heq as -> -> ->.
    exists key, st, d, fs'. do 5 (split; [done |]).
    unfold after_exec; cbn zeta. right; left. by exists out, err.
  - assert (Heq : EvExec cmd t res = EvExec
        (dockerCmd (dockerImage d) (compile_command d st (uuidv4 env)))
        EXEC_TIMEOUT (Exit 0 out err)).
    { apply elem_of_app in Hin as [Hin|Hin].
      - repeat (apply elem_of_cons in Hin as [Hin|Hin]; [try discriminate |]);
          [done | by apply elem_of_nil in Hin].
      - by apply (cleanup_event_not_exec _ _ _ _ _ (cleanup_events _ _ _ _ _ Hclean))
          in Hin. }
    injection Heq as -> -> ->.
    exists key, st, d, fs'. do 5 (split; [done |]).
    unfold after_exec; cbn zeta. right; right. by exists out, err, fs'', evs.
Qed.

End WorkerFacts.

(** ** The sandbox invocation *)

Module SandboxFacts.
Import JsString JsStringFacts JsValue JsRegExp App WorkerFacts Examples.

Lemma get_language_Own (key : string) (d : LangConfig) :
  get_language key = Own d ↔ LANGUAGES !! key = Some d.
Proof.
  unfold get_language. destruct (LANGUAGES !! key) as [d'|].
  - split; congruence.
  - case_bool_decide; split; congruence.
Qed.

(** C8. Whenever the worker starts a container, the command line is
    [docker run --rm --memory=256m --cpus=0.5 --network=none
    -v code_execution_volume:/code -w /code], then the image of the job's
    catalog entry, then [sh -c] with the expanded command between double
    quotes; it is run with the 15000 ms timeout. *)
Theorem sandbox_invocation_shape (env : Env) (job : Job) (fs : gmap string File)
  (cmd : string) (t : N) (res : proc_exit) :
  EvExec cmd t res ∈ (process_job env job fs).2 →
  ∃ key d st,
    to_property_key (job_language job) = Some key ∧
    LANGUAGES !! key = Some d ∧
    language_setup (job_language job) (job_code job) (get_language key)
      (uuidv4 env) = Some st ∧
    cmd = "docker run --rm --memory=256m --cpus=0.5 --network=none"
          ++ " -v code_execution_volume:/code -w /code "
          ++ dockerImage d ++ " sh -c "
          ++ String DQUOTE (compile_command d st (uuidv4 env)
                            ++ String DQUOTE EmptyString) ∧
    t = 15000%N.
Proof.
  destruct (process_job_worker env job fs) as (r & fs' & evs & _ & Hpath & ->).
  intros Hin. cbn [snd] in Hin.
  destruct (exec_event_inv env job fs _ cmd t res Hpath Hin)
    as (key & st & d & fs_s & [Hkey Hst] & Hcfg & -> & -> & _).
  exists key, d, st. repeat split; try done.
  by apply get_language_Own.
Qed.

Lemma sandbox_invocation_shape_witness :
  ∃ key d st,
    to_property_key (job_language python_hello) = Some key ∧
    LANGUAGES !! key = Some d ∧
    language_setup (job_language python_hello) (job_code python_hello)
      (get_language key) uuid_a = Some st ∧
    dockerCmd "python" ("python3 /code/" ++ uuid_a ++ ".py")
    = "docker run --rm --memory=256m --cpus=0.5 --network=none"
          ++ " -v code_execution_volume:/code -w /code "
      ++ dockerImage d ++ " sh -c "
      ++ String DQUOTE (compile_command d st uuid_a ++ String DQUOTE EmptyString) ∧
    EXEC_TIMEOUT = 15000%N.
Proof.
  apply (sandbox_invocation_shape
           (quiet_env uuid_a (Exit 0 "Hello from Python!" EmptyString))
           python_hello ∅ _ _ (Exit 0 "Hello from Python!" EmptyString)).
  vm_compute. do 2 apply list_elem_of_further. apply list_elem_of_here.
Defined.

End SandboxFacts.

(** ** Classification of the outcome *)

Module OutcomeFacts.
Import JsString JsStringFacts JsValue JsRegExp App WorkerFacts Examples.

Lemma compiled_language_iff (language : value) :
  compiled_language language = true
  ↔ language = VStr "java" ∨ language = VStr "c" ∨ language = VStr "cpp".
Proof.
  unfold compiled_language, strict_eq_str.
  destruct language as [| | | |s| |]; try (split; [done | by intros [|[|]]]).
  rewrite !orb_true_iff, !String.eqb_eq.
  split.
  - intros [[->| ->]| ->]; auto.
  - intros [[= ->]|[[= ->]|[= ->]]]; auto.
Qed.



(** C2, as stated, fails: a node job that runs into the deadline is failed
    with the message of the [exec] error, which starts with
    [Command failed:] and not with [Timeout after 15 seconds]. *)
Lemma timeout_reason_counterexample :
  EvExec (dockerCmd "node" ("node /code/" ++ uuid_a ++ ".js")) EXEC_TIMEOUT
    (TimedOut EmptyString EmptyString)
    ∈ (process_job (quiet_env uuid_a (TimedOut EmptyString EmptyString))
         node_loop ∅).2 ∧
  ∃ reason,
    (process_job (quiet_env uuid_a (TimedOut EmptyString EmptyString))
       node_loop ∅).1.1 = Failed reason ∧
    starts_with "Timeout after 15 seconds" reason = false.
Proof.
  split.
  - vm_compute. do 2 apply list_elem_of_further. apply list_elem_of_here.
  - eexists. split; [vm_compute; reflexivity | reflexivity].
Qed.

(** C2, amended. A job whose container is killed at the deadline, which
    is the constant 15000 ms handed to [exec], fails; its failure reason is
    the message of the [exec] error, [Command failed:] followed by the
    docker command line, a line feed and the captured stderr, and when
    stderr is not empty the catch block appends a line feed, [Stderr:], a
    line feed and the captured stderr once more. The worker adds no
    timeout marker. *)
Theorem timeout_fails_with_exec_message (env : Env) (job : Job)
  (fs : gmap string File) (cmd : string) (t : N) (out err : string) :
  EvExec cmd t (TimedOut out err) ∈ (process_job env job fs).2 →
  t = 15000%N ∧
  ∃ reason,
    (process_job env job fs).1.1 = Failed reason ∧
    reason = (if String.eqb err EmptyString
              then exec_error_message cmd err
              else exec_error_message cmd err
                   ++ String LF ("Stderr:" ++ String LF err)) ∧
    starts_with "Command failed: docker run --rm " reason = true.
Proof.
  destruct (process_job_worker env job fs) as (r & fs' & evs & _ & Hpath & ->).
  intros Hin. cbn [fst snd] in *.
  destruct (exec_event_inv env job fs _ cmd t _ Hpath Hin)
    as (key & st & d & fs_s & _ & _ & Hcmd & -> & _ & Hafter).
  split; [done |].
  destruct Hafter as [[_ [= -> _ _]]
    |[(out' & err' & [=] & _)|(out' & err' & fs'' & evs' & [=] & _)]].
  eexists. split; [reflexivity |]. cbn [message Error stderr_of].
  unfold rejection_message. rewrite Hcmd.
  destruct (String.eqb err EmptyString); split; reflexivity.
Qed.

Lemma timeout_fails_with_exec_message_witness :
  EXEC_TIMEOUT = 15000%N ∧
  ∃ reason,
    (process_job (quiet_env uuid_a (TimedOut EmptyString EmptyString))
       node_loop ∅).1.1 = Failed reason ∧
    reason = exec_error_message
               (dockerCmd "node" ("node /code/" ++ uuid_a ++ ".js")) EmptyString ∧
    starts_with "Command failed: docker run --rm " reason = true.
Proof.
  apply (timeout_fails_with_exec_message
           (quiet_env uuid_a (TimedOut EmptyString EmptyString)) node_loop ∅
           (dockerCmd "node" ("node /code/" ++ uuid_a ++ ".js")) EXEC_TIMEOUT
           EmptyString EmptyString).
  vm_compute. do 2 apply list_elem_of_further. apply list_elem_of_here.
Defined.

End OutcomeFacts.

(** ** Artifacts *)

Module ArtifactFacts.
Import JsString JsStringFacts JsValue JsRegExp App WorkerFacts Examples.









End ArtifactFacts.

(** ** POST /run *)

Module PostRunFacts.
Import JsString JsValue App Examples.

Lemma get_language_Missing (key : string) :
  get_language key = Missing ↔ LANGUAGES !! key = None ∧ key ∉ OBJECT_PROTOTYPE.
Proof.
  unfold get_language. destruct (LANGUAGES !! key) as [d|].
  - split; [done | by intros [? _]].
  - case_bool_decide; split; try done. by intros [_ ?].
Qed.

(** C4, as stated, fails: a well-formed submission in a catalog language
    is answered with 500, and nothing is enqueued, when the queue call
    rejects. *)
Lemma enqueue_failure_counterexample :
  truthy (req_code python_request) = true ∧
  is_string (req_code python_request) = true ∧
  req_language python_request = VStr "python" ∧
  is_Some (LANGUAGES !! "python") ∧
  post_run python_request down_queue
  = (Responded {| status := 500; json := ErrorBody "Failed to queue execution job" |},
     down_queue) ∧
  jobs down_queue = [].
Proof. repeat split; done. Qed.

(** A language that is not a catalog tag but names a member every object
    inherits passes the check [!LANGUAGES[language]]: the submission is
    enqueued and answered with 202. *)
Lemma inherited_name_accepted :
  LANGUAGES !! "constructor" = None ∧
  post_run constructor_request idle_queue
  = (Responded {| status := 202; json := JobIdBody 1 |},
     {| broker_up := true; next_id := 2;
        jobs := [{| job_id := 1; job_language := VStr "constructor";
                    job_code := "x" |}] |}).
Proof. split; by vm_compute. Qed.

(** C4, amended. A request whose code is missing, empty or not a string,
    or whose language is missing, or whose language is a string that is
    neither a key of the catalog nor a name inherited from
    [Object.prototype], is answered with 400 and nothing is enqueued. A
    request with a non-empty string as code and a catalog tag as language
    is handed to the queue: when the queue accepts it, the job
    [{language, code}] is enqueued and the answer is 202 with the id the
    queue assigned; when the queue call rejects, the answer is 500 and
    nothing is enqueued. *)
Theorem post_run_validation (req : Request) (q : Queue) :
  ((∀ s, req_code req = VStr s → s = EmptyString) →
   post_run req q = (bad_request "Missing or invalid code field", q)) ∧
  (∀ s, req_code req = VStr s → s ≠ EmptyString →
     (truthy (req_language req) = false →
      post_run req q = (bad_request "Missing or unsupported language", q)) ∧
     (∀ l, req_language req = VStr l →
        LANGUAGES !! l = None → l ∉ OBJECT_PROTOTYPE →
        post_run req q = (bad_request "Missing or unsupported language", q)) ∧
     (∀ l d, req_language req = VStr l → LANGUAGES !! l = Some d →
        (broker_up q = true →
         post_run req q
         = (Responded {| status := 202; json := JobIdBody (next_id q) |},
            {| broker_up := true; next_id := S (next_id q);
               jobs := (jobs q ++ [{| job_id := next_id q;
                                      job_language := VStr l;
                                      job_code := s |}])%list |})) ∧
        (broker_up q = false →
         post_run req q
         = (Responded {| status := 500;
                         json := ErrorBody "Failed to queue execution job" |}, q)))).
Proof.
  destruct req as [language code]. cbn [req_code req_language].
  split.
  - intros Hcode. unfold post_run. cbn [req_code req_language].
    destruct code as [| |b|n|s| |]; cbn [truthy is_string negb];
      rewrite ?orb_true_r; try done.
    by rewrite (Hcode s eq_refl).
  - intros s -> Hs. unfold post_run. cbn [req_code req_language truthy is_string].
    apply String.eqb_neq in Hs. rewrite Hs. cbn [negb orb].
    split; [| split].
    + by intros ->.
    + intros l -> Hnone Hproto.
      destruct (truthy (VStr l)); [| done]. cbn [negb to_property_key to_string].
      assert (get_language l = Missing) as -> by by apply get_language_Missing.
      done.
    + intros l d -> Hd.
      assert (Hl : truthy (VStr l) = true).
      { cbn. destruct (String.eqb_spec l EmptyString) as [->|]; [| done].
        by vm_compute in Hd. }
      rewrite Hl. cbn [negb to_property_key to_string].
      unfold get_language. rewrite Hd. cbn [property_truthy negb string_of].
      unfold queue_add. split; intros ->; done.
Qed.

Lemma post_run_validation_witness :
  post_run brainfuck_request idle_queue
  = (bad_request "Missing or unsupported language", idle_queue).
Proof.
  refine (proj1 (proj2 (proj2 (post_run_validation brainfuck_request idle_queue)
                          "+" _ _)) "brainfuck" _ _ _).
  - reflexivity.
  - discriminate.
  - reflexivity.
  - vm_compute. reflexivity.
  - apply (bool_decide_unpack ("brainfuck" ∉ OBJECT_PROTOTYPE)). vm_compute. exact I.
Defined.

Lemma language_setup_defined (language : value) (code : string)
  (p : property) (id : string) :
  p ≠ Missing → is_Some (language_setup language code p id).
Proof.
  intros Hp. unfold language_setup.
  destruct (strict_eq_str language "java"); [by eexists |].
  destruct p; [by eexists | by eexists | done].
Qed.

(** C10. For a job that [POST /run] has put on the queue, the worker's
    lookup [LANGUAGES[language]] yields a value other than [undefined]
    (a catalog entry or an inherited member), so the setup block, which
    reads [langConfig.ext], does not read a property of [undefined]. *)
Theorem enqueued_language_defined (req : Request) (q q' : Queue) (r : reply)
  (job : Job) :
  post_run req q = (r, q') → job ∈ jobs q' → job ∉ jobs q →
  ∃ key,
    to_property_key (job_language job) = Some key ∧
    get_language key ≠ Missing ∧
    property_truthy (get_language key) = true ∧
    ∀ id, is_Some (language_setup (job_language job) (job_code job)
                     (get_language key) id).
Proof.
  unfold post_run.
  destruct (negb (truthy (req_code req)) || negb (is_string (req_code req)));
    [by intros [= _ <-] |].
  destruct (negb (truthy (req_language req))); [by intros [= _ <-] |].
  destruct (to_property_key (req_language req)) as [key|] eqn:Hkey;
    [| by intros [= _ <-]].
  destruct (property_truthy (get_language key)) eqn:Htruthy; cbn [negb];
    [| by intros [= _ <-]].
  unfold queue_add. destruct (broker_up q); [| by intros [= _ <-]].
  intros [= _ <-]. cbn [jobs]. intros Hin Hnew.
  apply elem_of_app in Hin as [Hin|Hin]; [done |].
  apply list_elem_of_singleton in Hin as ->. cbn [job_language job_code].
  exists key. split; [done |].
  assert (Hdef : get_language key ≠ Missing).
  { intros Hmiss. by rewrite Hmiss in Htruthy. }
  split; [done |]. split; [done |].
  intros id. by apply language_setup_defined.
Qed.

Lemma enqueued_language_defined_witness :
  ∃ key,
    to_property_key (VStr "python") = Some key ∧
    get_language key ≠ Missing ∧
    property_truthy (get_language key) = true ∧
    ∀ id, is_Some (language_setup (VStr "python") "print(1)" (get_language key) id).
Proof.
  apply (enqueued_language_defined python_request idle_queue
           {| broker_up := true; next_id := 2;
              jobs := [{| job_id := 1; job_language := VStr "python";
                          job_code := "print(1)" |}] |}
           (Responded {| status := 202; json := JobIdBody 1 |})
           {| job_id := 1; job_language := VStr "python"; job_code := "print(1)" |}).
  - vm_compute. reflexivity.
  - vm_compute. apply list_elem_of_here.
  - vm_compute. apply not_elem_of_nil.
Defined.

End PostRunFacts.

(** ** Command templates *)

Module CommandFacts.
Import JsString JsStringFacts JsValue JsRegExp App Examples.

Lemma plain_no_dollar (s : string) : plain s = true → no_dollar s = true.
Proof.
  apply all_chars_impl. intros c [H _]%andb_true_iff. exact H.
Qed.

Lemma plain_no_brace (s : string) :
  plain s = true → all_chars (λ c, negb (Ascii.eqb "{" c)) s = true.
Proof.
  apply all_chars_impl. intros c [_ H]%andb_true_iff.
  by rewrite Ascii.eqb_sym.
Qed.

Lemma plain_append (a b : string) : plain (a +:+ b) = plain a && plain b.
Proof. apply all_chars_append. Qed.

(** [formatCommand] is the three [replaceAll] calls in the order of
    [Object.entries]. *)
Lemma formatCommand_unfold (template : string) (r : Replacements) :
  formatCommand template r
  = replaceAll (replaceAll (replaceAll template "{file}" (file r))
                  "{output}" (output r)) "{classname}" (classname r).
Proof. reflexivity. Qed.

Lemma formatCommand_plain (template : string) (r : Replacements) :
  no_dollar (file r) = true → no_dollar (output r) = true →
  no_dollar (classname r) = true →
  formatCommand template r
  = replace_plain "{classname}" (classname r) 0
      (replace_plain "{output}" (output r) 0
         (replace_plain "{file}" (file r) 0 template)).
Proof.
  intros Hf Ho Hc. rewrite formatCommand_unfold.
  by rewrite !replaceAll_plain.
Qed.

(** A brace-free text at the end of the scanned text is copied. *)
Lemma replace_plain_free_end (a : ascii) (p rep u : string) :
  all_chars (λ c, negb (Ascii.eqb a c)) u = true →
  replace_plain (String a p) rep 0 u = u.
Proof.
  intros Hu. rewrite <- (append_nil_r u) at 1.
  rewrite replace_plain_free by done. apply append_nil_r.
Qed.

(** Scans a text made of known code units and brace-free unknowns. *)
Ltac scan :=
  repeat first
    [ progress simpl
    | rewrite replace_plain_free by (by apply plain_no_brace)
    | rewrite replace_plain_free_end by (by apply plain_no_brace)
    | rewrite append_nil_r ].

Section ClosedForms.

Variables f o c : string.
Hypothesis Hf : plain f = true.
Hypothesis Ho : plain o = true.
Hypothesis Hc : plain c = true.

Lemma format_c :
  formatCommand "gcc {file} -o {output} && {output}"
    {| file := f; output := o; classname := c |}
  = "gcc " ++ f ++ " -o " ++ o ++ " && " ++ o.
Proof.
  rewrite formatCommand_plain by (by apply plain_no_dollar).
  scan. done.
Qed.

Lemma format_cpp :
  formatCommand "g++ {file} -o {output} && {output}"
    {| file := f; output := o; classname := c |}
  = "g++ " ++ f ++ " -o " ++ o ++ " && " ++ o.
Proof.
  rewrite formatCommand_plain by (by apply plain_no_dollar).
  scan. done.
Qed.

Lemma format_python :
  formatCommand "python3 {file}"
    {| file := f; output := o; classname := c |}
  = "python3 " ++ f.
Proof.
  rewrite formatCommand_plain by (by apply plain_no_dollar).
  scan. done.
Qed.

Lemma format_java :
  formatCommand "javac {file} && java {classname}"
    {| file := f; output := o; classname := c |}
  = "javac " ++ f ++ " && java " ++ c.
Proof.
  rewrite formatCommand_plain by (by apply plain_no_dollar).
  scan. done.
Qed.

Lemma format_node :
  formatCommand "node {file}"
    {| file := f; output := o; classname := c |}
  = "node " ++ f.
Proof.
  rewrite formatCommand_plain by (by apply plain_no_dollar).
  scan. done.
Qed.

End ClosedForms.

(** With replacement texts free of dollar signs, each of the three
    steps replaces every occurrence of its placeholder. *)
Lemma formatCommand_replaced (template : string) (r : Replacements) :
  no_dollar (file r) = true → no_dollar (output r) = true →
  no_dollar (classname r) = true →
  ∃ s1 s2,
    replaced "{file}" (file r) template s1 ∧
    replaced "{output}" (output r) s1 s2 ∧
    replaced "{classname}" (classname r) s2 (formatCommand template r).
Proof.
  intros Hf Ho Hc. rewrite formatCommand_plain by done.
  eexists _, _. split; [| split]; by apply replace_plain_replaced.
Qed.

End CommandFacts.

(** ** Artifact names *)

Module NamingFacts.
Import JsString JsStringFacts JsValue JsRegExp JsRegExpFacts App Platform.
Import ClassNameFacts WorkerFacts CommandFacts Examples.

Lemma ident_char_plain (c : ascii) :
  is_ident_char c = true → is_plain_char c = true.
Proof. destruct c as [[] [] [] [] [] [] [] []]; done. Qed.

Lemma ident_char_not_meta (c : ascii) :
  is_ident_char c = true → is_shell_meta c = false.
Proof. destruct c as [[] [] [] [] [] [] [] []]; done. Qed.

Lemma ident_char_not_dot (c : ascii) :
  is_ident_char c = true → Ascii.eqb c "." = false.
Proof. destruct c as [[] [] [] [] [] [] [] []]; done. Qed.

Lemma uuid_char_plain (c : ascii) :
  is_hex c || is_dash c = true → is_plain_char c = true.
Proof. destruct c as [[] [] [] [] [] [] [] []]; done. Qed.

Lemma uuid_char_not_dot (c : ascii) :
  is_hex c || is_dash c = true → Ascii.eqb c "." = false.
Proof. destruct c as [[] [] [] [] [] [] [] []]; done. Qed.

Lemma uuid_shape_chars (i : nat) (s : string) :
  uuid_shape i s = true → all_chars (λ c, is_hex c || is_dash c) s = true.
Proof.
  revert i. induction s as [|c s IH]; intros i; simpl; [done |].
  intros [Hc Hs]%andb_true_iff. rewrite (IH _ Hs), andb_true_r.
  destruct ((i =? 8)%nat || (i =? 13)%nat || (i =? 18)%nat || (i =? 23)%nat);
    rewrite Hc; [apply orb_true_r | done].
Qed.

Lemma uuid_chars (s : string) :
  is_uuid s = true → all_chars (λ c, is_hex c || is_dash c) s = true.
Proof.
  unfold is_uuid. intros [_ H]%andb_true_iff. by eapply uuid_shape_chars.
Qed.

Lemma uuid_length (s : string) : is_uuid s = true → String.length s = 36%nat.
Proof.
  unfold is_uuid. intros [H _]%andb_true_iff. by apply Nat.eqb_eq.
Qed.

Lemma uuid_plain (s : string) : is_uuid s = true → plain s = true.
Proof.
  intros H. eapply all_chars_impl; [apply uuid_char_plain | by apply uuid_chars].
Qed.

(** A uuid has a dash at position 8, so it is not a word of identifier
    characters. *)
Lemma uuid_not_identifier (s : string) :
  is_uuid s = true → all_chars is_ident_char s = false.
Proof.
  unfold is_uuid. intros [Hlen H]%andb_true_iff.
  do 9 (destruct s as [|? s]; [done |]). clear Hlen.
  simpl in H. repeat (apply andb_true_iff in H as [? H]).
  match goal with
  | Hd : is_dash ?c = true |- _ =>
      apply Ascii.eqb_eq in Hd; subst c
  end.
  simpl. rewrite !andb_false_r. done.
Qed.

Lemma strict_eq_str_true (v : value) (s : string) :
  strict_eq_str v s = true ↔ v = VStr s.
Proof.
  destruct v as [| | | |t| |]; simpl; try (split; [done | discriminate]).
  rewrite String.eqb_eq. split; [by intros -> | by intros [= ->]].
Qed.

Lemma strict_eq_str_false (v : value) (s : string) :
  strict_eq_str v s = false ↔ v ≠ VStr s.
Proof.
  rewrite <- strict_eq_str_true. by destruct (strict_eq_str v s).
Qed.

(** The catalog has the five entries of the source. *)
Lemma catalog_inv (key : string) (d : LangConfig) :
  LANGUAGES !! key = Some d →
  (key, d) ∈
    [("c", {| ext := "c"; compileCmd := "gcc {file} -o {output} && {output}";
              dockerImage := "gcc:13" |});
     ("cpp", {| ext := "cpp"; compileCmd := "g++ {file} -o {output} && {output}";
                dockerImage := "gcc:13" |});
     ("python", {| ext := "py"; compileCmd := "python3 {file}";
                   dockerImage := "python" |});
     ("java", {| ext := "java"; compileCmd := "javac {file} && java {classname}";
                 dockerImage := "openjdk:17" |});
     ("node", {| ext := "js"; compileCmd := "node {file}";
                 dockerImage := "node" |})].
Proof. apply elem_of_list_to_map_2. Qed.

Lemma ext_text_plain (key : string) : plain (ext_text (get_language key)) = true.
Proof.
  unfold get_language.
  destruct (LANGUAGES !! key) as [d|] eqn:Hd; [| by case_bool_decide].
  apply catalog_inv in Hd.
  repeat (apply elem_of_cons in Hd as [[= _ ->]|Hd]; [done |]).
  by apply elem_of_nil in Hd.
Qed.

Lemma identifier_plain (s : string) : is_identifier s = true → plain s = true.
Proof.
  intros H%identifier_all_chars.
  eapply all_chars_impl; [apply ident_char_plain | done].
Qed.

Lemma language_setup_java (code : string) (p : property) (id : string) :
  language_setup (VStr "java") code p id
  = Some {| filename := java_class_name code ++ ".java";
            className := java_class_name code;
            filepath := path_join CODE_DIR (java_class_name code ++ ".java");
            containerCodePath := "/code/" ++ java_class_name code ++ ".java";
            filesToCleanup :=
              [path_join CODE_DIR (java_class_name code ++ ".java");
               path_join CODE_DIR (java_class_name code ++ ".class")] |}.
Proof. reflexivity. Qed.

Lemma language_setup_other (language : value) (code : string) (p : property)
  (id : string) (st : Setup) :
  language ≠ VStr "java" → language_setup language code p id = Some st →
  st = {| filename := id ++ "." ++ ext_text p;
          className := "Main";
          filepath := path_join CODE_DIR (id ++ "." ++ ext_text p);
          containerCodePath := "/code/" ++ id ++ "." ++ ext_text p;
          filesToCleanup := [path_join CODE_DIR (id ++ "." ++ ext_text p)] |}.
Proof.
  intros Hl%strict_eq_str_false. unfold language_setup. rewrite Hl.
  destruct p; congruence.
Qed.

(** Every setup names the class after an identifier. *)
Lemma setup_class_name (language : value) (code : string) (p : property)
  (id : string) (st : Setup) :
  language_setup language code p id = Some st →
  (language = VStr "java" ∧ className st = java_class_name code)
  ∨ (language ≠ VStr "java" ∧ className st = "Main").
Proof.
  intros Hst. destruct (strict_eq_str language "java") eqn:Hl.
  - apply strict_eq_str_true in Hl as ->.
    rewrite language_setup_java in Hst. injection Hst as <-. by left.
  - apply strict_eq_str_false in Hl.
    rewrite (language_setup_other _ _ _ _ _ Hl Hst). by right.
Qed.

(** The texts the worker binds to the placeholders contain neither a
    dollar sign nor an opening brace. *)
Lemma worker_bindings_plain (env : Env) (job : Job) (key : string) (st : Setup) :
  is_uuid (uuidv4 env) = true → set_up env job key st →
  plain (containerCodePath st) = true ∧
  plain ("/code/" ++ uuidv4 env ++ ".out") = true ∧
  plain (className st) = true.
Proof.
  intros Hid [Hkey Hst].
  assert (Hout : plain ("/code/" ++ uuidv4 env ++ ".out") = true).
  { rewrite !plain_append, (uuid_plain _ Hid). done. }
  destruct (strict_eq_str (job_language job) "java") eqn:Hl.
  - apply strict_eq_str_true in Hl. rewrite Hl, language_setup_java in Hst.
    injection Hst as <-. cbn [containerCodePath className].
    pose proof (identifier_plain _ (java_class_name_identifier (job_code job))) as Hcls.
    split; [| by split]. unfold plain in *. simpl.
    rewrite !all_chars_append, Hcls. reflexivity.
  - apply strict_eq_str_false in Hl.
    rewrite (language_setup_other _ _ _ _ _ Hl Hst).
    cbn [containerCodePath className].
    split; [| by split].
    pose proof (uuid_plain _ Hid) as Hu. pose proof (ext_text_plain key) as He.
    remember (ext_text (get_language key)) as e eqn:Heqe. clear Heqe.
    unfold plain in *. simpl. rewrite !all_chars_append, Hu. simpl. exact He.
Qed.

(** Once the setup is through, the first call of the worker writes the
    source to the file path of the setup. *)
Lemma first_event_is_write (env : Env) (job : Job) (fs : gmap string File)
  (key : string) (st : Setup) :
  set_up env job key st →
  head (process_job env job fs).2
  = Some (EvWriteFile (filepath st) (job_code job)).
Proof.
  intros [Hkey Hst].
  destruct (process_job_worker env job fs) as (r & fs' & evs & _ & Hpath & ->).
  cbn [snd]. remember (r, fs', evs) as run eqn:Hrun.
  destruct Hpath as [Hk|key' Hk Hs
    |key' st' msg [Hk Hs]|key' st' msg [Hk Hs]|key' st' name [Hk Hs]
    |key' st' [Hk Hs]|key' st' d res fs1 [Hk Hs]
    |key' st' d out err fs1 [Hk Hs]|key' st' d out err fs1 fs2 evs' [Hk Hs]];
    injection Hrun as <- <- <-;
    rewrite Hkey in Hk; try discriminate Hk; injection Hk as <-;
    rewrite Hst in Hs; try discriminate Hs; injection Hs as <-; done.
Qed.

Lemma java_entry :
  get_language "java"
  = Own {| ext := "java"; compileCmd := "javac {file} && java {classname}";
           dockerImage := "openjdk:17" |}.
Proof. by vm_compute. Qed.

(** C9. The text bound to [{classname}] is always a word of
    [[A-Za-z_][A-Za-z0-9_]*]: the first capture of the pattern on the
    submitted source, or [Main]. It holds no character the shell gives a
    meaning to, and for a Java job the whole command is the two fixed
    command words around that identifier. *)
Theorem classname_is_identifier (env : Env) (job : Job) (key : string)
  (st : Setup) :
  set_up env job key st →
  is_identifier (className st) = true ∧
  all_chars (λ c, negb (is_shell_meta c)) (className st) = true ∧
  (className st = "Main"
   ∨ ∃ whole, regexp_exec CLASS_RE (job_code job) = Some [whole; className st]) ∧
  (job_language job = VStr "java" → is_uuid (uuidv4 env) = true →
   ∃ d, get_language key = Own d ∧
        compile_command d st (uuidv4 env)
        = "javac /code/" ++ className st ++ ".java && java " ++ className st).
Proof.
  intros Hup. pose proof Hup as [Hkey Hst].
  assert (Hid : is_identifier (className st) = true).
  { destruct (setup_class_name _ _ _ _ _ Hst) as [[_ ->]|[_ ->]];
      [apply java_class_name_identifier | done]. }
  split; [done |]. split; [| split].
  - eapply all_chars_impl; [| by apply identifier_all_chars].
    intros c Hc. by rewrite (ident_char_not_meta _ Hc).
  - destruct (setup_class_name _ _ _ _ _ Hst) as [[_ Hcls]|[_ Hcls]]; [| by left].
    rewrite Hcls.
    destruct (java_class_name_spec (job_code job))
      as [(whole & cls & Hm & ->)|[_ ->]]; [right; by exists whole | by left].
  - intros Hl Huuid. rewrite Hl in Hkey. injection Hkey as <-.
    eexists. split; [apply java_entry |].
    destruct (worker_bindings_plain env job "java" st Huuid) as (Hf & Ho & Hc).
    { split; [by rewrite Hl | done]. }
    unfold compile_command. cbn [compileCmd].
    rewrite format_java by done.
    rewrite Hl, language_setup_java in Hst. injection Hst as <-.
    cbn [containerCodePath className]. simpl. by rewrite !append_assoc.
Qed.

Lemma classname_is_identifier_witness :
  is_identifier "Greeter" = true ∧
  all_chars (λ c, negb (is_shell_meta c)) "Greeter" = true ∧
  ("Greeter" = "Main"
   ∨ ∃ whole,
       regexp_exec CLASS_RE (job_code java_greeter) = Some [whole; "Greeter"]) ∧
  (job_language java_greeter = VStr "java" → is_uuid uuid_a = true →
   ∃ d, get_language "java" = Own d ∧
        compile_command d
          {| filename := "Greeter.java"; className := "Greeter";
             filepath := "/app/code/Greeter.java";
             containerCodePath := "/code/Greeter.java";
             filesToCleanup := ["/app/code/Greeter.java"; "/app/code/Greeter.class"] |}
          uuid_a
        = "javac /code/Greeter.java && java Greeter").
Proof.
  apply (classname_is_identifier
           (quiet_env uuid_a (Exit 0 EmptyString EmptyString)) java_greeter "java"
           {| filename := "Greeter.java"; className := "Greeter";
              filepath := "/app/code/Greeter.java";
              containerCodePath := "/code/Greeter.java";
              filesToCleanup := ["/app/code/Greeter.java"; "/app/code/Greeter.class"] |}).
  split; vm_compute; reflexivity.
Defined.

(** C5. A Java job is stored under the class name followed by [.java],
    the class name being the first capture of the pattern on the source or
    [Main] when the pattern has no match, and the job goes on to write
    that file. Any other job whose language resolves to a catalog entry
    is stored under the uuid, a dot and the extension of the entry. *)
Theorem artifact_name_rule (env : Env) (job : Job) (fs : gmap string File) :
  (job_language job = VStr "java" →
   ∃ cls st,
     ((∃ whole, regexp_exec CLASS_RE (job_code job) = Some [whole; cls])
      ∨ (regexp_exec CLASS_RE (job_code job) = None ∧ cls = "Main")) ∧
     language_setup (job_language job) (job_code job) (get_language "java")
       (uuidv4 env) = Some st ∧
     filename st = cls ++ ".java" ∧
     head (process_job env job fs).2
     = Some (EvWriteFile (path_join CODE_DIR (cls ++ ".java")) (job_code job))) ∧
  (job_language job ≠ VStr "java" →
   ∀ key d, to_property_key (job_language job) = Some key →
     LANGUAGES !! key = Some d →
     ∃ st,
       language_setup (job_language job) (job_code job) (get_language key)
         (uuidv4 env) = Some st ∧
       filename st = uuidv4 env ++ "." ++ ext d ∧
       head (process_job env job fs).2
       = Some (EvWriteFile (path_join CODE_DIR (uuidv4 env ++ "." ++ ext d))
                 (job_code job))).
Proof.
  split.
  - intros Hl.
    assert (Hst := language_setup_java (job_code job) (get_language "java")
                     (uuidv4 env)).
    rewrite <- Hl in Hst.
    match type of Hst with
    | _ = Some ?x => exists (java_class_name (job_code job)), x
    end.
    split; [| split; [exact Hst | split; [reflexivity |]]].
    + destruct (java_class_name_spec (job_code job))
        as [(whole & cls & Hm & ->)|[Hm ->]]; [left; by exists whole | by right].
    + match type of Hst with
      | _ = Some ?x => assert (Hup : set_up env job "java" x)
      end.
      { split; [by rewrite Hl | exact Hst]. }
      by rewrite (first_event_is_write env job fs _ _ Hup).
  - intros Hl key d Hkey Hd.
    assert (Hcfg : get_language key = Own d)
      by by apply SandboxFacts.get_language_Own.
    destruct (PostRunFacts.language_setup_defined (job_language job) (job_code job)
                (get_language key) (uuidv4 env)) as [st Hst]; [by rewrite Hcfg |].
    exists st. split; [done |].
    pose proof (language_setup_other _ _ _ _ _ Hl Hst) as Heq.
    rewrite Hcfg in Heq. cbn [ext_text] in Heq.
    split; [by rewrite Heq |].
    rewrite (first_event_is_write env job fs key st); [by rewrite Heq | done].
Qed.

Lemma artifact_name_rule_witness :
  ∃ cls st,
    ((∃ whole, regexp_exec CLASS_RE (job_code java_greeter) = Some [whole; cls])
     ∨ (regexp_exec CLASS_RE (job_code java_greeter) = None ∧ cls = "Main")) ∧
    language_setup (job_language java_greeter) (job_code java_greeter)
      (get_language "java") uuid_a = Some st ∧
    filename st = cls ++ ".java" ∧
    head (process_job (quiet_env uuid_a (Exit 0 EmptyString EmptyString))
            java_greeter ∅).2
    = Some (EvWriteFile (path_join CODE_DIR (cls ++ ".java")) (job_code java_greeter)).
Proof.
  apply (proj1 (artifact_name_rule
                  (quiet_env uuid_a (Exit 0 EmptyString EmptyString))
                  java_greeter ∅)).
  reflexivity.
Defined.

(** Two names with the same text before their first dot. *)
Lemma first_dot_unique (a x b y : string) :
  all_chars (λ c, negb (Ascii.eqb c ".")) a = true →
  all_chars (λ c, negb (Ascii.eqb c ".")) b = true →
  a ++ String "." x = b ++ String "." y → a = b.
Proof.
  revert b. induction a as [|c a IH]; intros [|c' b]; simpl; try done.
  - intros _ [Hc _]%andb_true_iff [= <- _]. done.
  - intros [Hc _]%andb_true_iff _ [= -> _]. done.
  - intros [_ Ha]%andb_true_iff [_ Hb]%andb_true_iff [= -> Heq].
    by rewrite (IH b Ha Hb Heq).
Qed.

Lemma uuid_no_dot (s : string) :
  is_uuid s = true → all_chars (λ c, negb (Ascii.eqb c ".")) s = true.
Proof.
  intros H%uuid_chars. eapply all_chars_impl; [| exact H].
  intros c Hc. by rewrite (uuid_char_not_dot _ Hc).
Qed.

Lemma identifier_no_dot (s : string) :
  is_identifier s = true → all_chars (λ c, negb (Ascii.eqb c ".")) s = true.
Proof.
  intros H%identifier_all_chars. eapply all_chars_impl; [| exact H].
  intros c Hc. by rewrite (ident_char_not_dot _ Hc).
Qed.

Lemma path_join_inj (dir a b : string) : path_join dir a = path_join dir b → a = b.
Proof.
  unfold path_join. intros H.
  apply String.app_inj in H. by apply (String.app_inj "/") in H.
Qed.

(** C6, as stated, fails: two different Java jobs that both declare
    [public class Main], run with different uuids, are stored under the
    same name and the same path. *)
Lemma java_names_collide :
  job_id java_main_one ≠ job_id java_main_two ∧ uuid_a ≠ uuid_b ∧
  ∃ st1 st2,
    language_setup (job_language java_main_one) (job_code java_main_one)
      (get_language "java") uuid_a = Some st1 ∧
    language_setup (job_language java_main_two) (job_code java_main_two)
      (get_language "java") uuid_b = Some st2 ∧
    filename st1 = "Main.java" ∧ filename st2 = "Main.java" ∧
    filepath st1 = filepath st2.
Proof.
  split; [done |]. split; [done |].
  eexists _, _. split; [reflexivity |]. split; [reflexivity |].
  split; [| split]; by vm_compute.
Qed.

(** C6, amended. Two jobs that run with different uuids are stored under
    different names, and different paths, as soon as one of them is not a
    Java job. Two Java jobs are stored under the same name exactly when
    the class names taken from their sources are the same. *)
Theorem artifact_names_distinct (l1 l2 : value) (c1 c2 : string)
  (p1 p2 : property) (id1 id2 : string) (st1 st2 : Setup) :
  is_uuid id1 = true → is_uuid id2 = true → id1 ≠ id2 →
  language_setup l1 c1 p1 id1 = Some st1 →
  language_setup l2 c2 p2 id2 = Some st2 →
  (l1 ≠ VStr "java" ∨ l2 ≠ VStr "java" →
   filename st1 ≠ filename st2 ∧ filepath st1 ≠ filepath st2) ∧
  (l1 = VStr "java" → l2 = VStr "java" →
   (filename st1 = filename st2 ↔ java_class_name c1 = java_class_name c2) ∧
   (filepath st1 = filepath st2 ↔ java_class_name c1 = java_class_name c2)).
Proof.
  intros Hid1 Hid2 Hne Hst1 Hst2.
  assert (Hpath : ∀ st l c p id, language_setup l c p id = Some st →
            filepath st = path_join CODE_DIR (filename st)).
  { intros st l c p id. unfold language_setup.
    destruct (strict_eq_str l "java"); [by intros [= <-] |].
    destruct p; by intros [= <-]. }
  assert (Hnames : l1 ≠ VStr "java" ∨ l2 ≠ VStr "java" →
            filename st1 ≠ filename st2).
  { intros Hl Heq.
    destruct (strict_eq_str l1 "java") eqn:Hl1, (strict_eq_str l2 "java") eqn:Hl2.
    - apply strict_eq_str_true in Hl1, Hl2. by destruct Hl.
    - apply strict_eq_str_true in Hl1 as ->. apply strict_eq_str_false in Hl2.
      rewrite language_setup_java in Hst1. injection Hst1 as <-.
      rewrite (language_setup_other _ _ _ _ _ Hl2 Hst2) in Heq.
      cbn [filename] in Heq.
      pose proof (java_class_name_identifier c1) as Hcls.
      apply first_dot_unique in Heq;
        [| by apply identifier_no_dot | by apply uuid_no_dot].
      apply identifier_all_chars in Hcls. rewrite Heq in Hcls.
      by rewrite (uuid_not_identifier _ Hid2) in Hcls.
    - apply strict_eq_str_true in Hl2 as ->. apply strict_eq_str_false in Hl1.
      rewrite language_setup_java in Hst2. injection Hst2 as <-.
      rewrite (language_setup_other _ _ _ _ _ Hl1 Hst1) in Heq.
      cbn [filename] in Heq.
      pose proof (java_class_name_identifier c2) as Hcls.
      apply first_dot_unique in Heq;
        [| by apply uuid_no_dot | by apply identifier_no_dot].
      apply identifier_all_chars in Hcls. rewrite <- Heq in Hcls.
      by rewrite (uuid_not_identifier _ Hid1) in Hcls.
    - apply strict_eq_str_false in Hl1, Hl2.
      rewrite (language_setup_other _ _ _ _ _ Hl1 Hst1) in Heq.
      rewrite (language_setup_other _ _ _ _ _ Hl2 Hst2) in Heq.
      cbn [filename] in Heq.
      apply first_dot_unique in Heq; [done | by apply uuid_no_dot..]. }
  split.
  - intros Hl. split; [by apply Hnames |].
    rewrite (Hpath _ _ _ _ _ Hst1), (Hpath _ _ _ _ _ Hst2).
    intros Heq%path_join_inj. by apply Hnames.
  - intros -> ->.
    rewrite language_setup_java in Hst1, Hst2.
    injection Hst1 as <-. injection Hst2 as <-. cbn [filename filepath].
    assert (Hiff : java_class_name c1 ++ ".java" = java_class_name c2 ++ ".java"
                   ↔ java_class_name c1 = java_class_name c2).
    { split; [| by intros ->].
      apply first_dot_unique; apply identifier_no_dot, java_class_name_identifier. }
    split; [done |].
    rewrite <- Hiff. split; [apply path_join_inj | by intros ->].
Qed.

Lemma artifact_names_distinct_witness :
  ("Main.java" ≠ uuid_b ++ ".py" ∧
   "/app/code/Main.java" ≠ path_join CODE_DIR (uuid_b ++ ".py")) ∧
  (VStr "java" = VStr "java" → VStr "python" = VStr "java" →
   ("Main.java" = uuid_b ++ ".py"
    ↔ java_class_name (job_code java_main_one)
      = java_class_name (job_code python_hello)) ∧
   ("/app/code/Main.java" = path_join CODE_DIR (uuid_b ++ ".py")
    ↔ java_class_name (job_code java_main_one)
      = java_class_name (job_code python_hello))).
Proof.
  destruct (artifact_names_distinct
              (VStr "java") (VStr "python")
              (job_code java_main_one) (job_code python_hello)
              (get_language "java") (get_language "python") uuid_a uuid_b
              {| filename := "Main.java"; className := "Main";
                 filepath := "/app/code/Main.java";
                 containerCodePath := "/code/Main.java";
                 filesToCleanup := ["/app/code/Main.java"; "/app/code/Main.class"] |}
              {| filename := uuid_b ++ ".py"; className := "Main";
                 filepath := path_join CODE_DIR (uuid_b ++ ".py");
                 containerCodePath := "/code/" ++ uuid_b ++ ".py";
                 filesToCleanup := [path_join CODE_DIR (uuid_b ++ ".py")] |})
    as [Hdiff Hjava].
  - reflexivity.
  - reflexivity.
  - vm_compute. discriminate.
  - vm_compute. reflexivity.
  - vm_compute. reflexivity.
  - split; [| exact Hjava]. apply Hdiff. right. discriminate.
Defined.

End NamingFacts.

(** ** The artifact set of each catalog language *)

Module ArtifactSetFacts.
Import JsString JsStringFacts JsValue JsRegExp JsRegExpFacts App Platform.
Import ClassNameFacts WorkerFacts CommandFacts NamingFacts ArtifactFacts.

Lemma uuid_char_not_slash (c : ascii) :
  is_hex c || is_dash c = true → Ascii.eqb "/" c = false.
Proof. destruct c as [[] [] [] [] [] [] [] []]; done. Qed.

Lemma hex_not_o (c : ascii) : is_hex c = true → Ascii.eqb "o" c = false.
Proof. destruct c as [[] [] [] [] [] [] [] []]; done. Qed.

(** A run of code units that cannot open the search string holds no
    occurrence of it. *)
Lemma includes_free (a : ascii) (p u s : string) :
  all_chars (λ c, negb (Ascii.eqb a c)) u = true →
  includes (u +:+ s) (String a p) = includes s (String a p).
Proof.
  induction u as [|c u IH]; [done |].
  cbn [all_chars]. intros [Hc Hu]%andb_true_iff.
  change (String c u +:+ s) with (String c (u +:+ s)).
  cbn [includes starts_with]. apply negb_true_iff in Hc.
  by rewrite Hc, IH.
Qed.

Lemma includes_free_end (a : ascii) (p u : string) :
  all_chars (λ c, negb (Ascii.eqb a c)) u = true →
  includes u (String a p) = false.
Proof.
  intros Hu. rewrite <- (append_nil_r u). by rewrite includes_free.
Qed.

Lemma includes_cons (c : ascii) (s p : string) :
  includes (String c s) p = starts_with p (String c s) || includes s p.
Proof. reflexivity. Qed.

(** The command of a scripting language does not mention the path of a
    compiled binary. *)
Lemma script_command_has_no_binary (word ext id : string) :
  is_uuid id = true →
  all_chars (λ c, negb (Ascii.eqb "/" c)) word = true →
  starts_with ".out" (String "." ext) = false →
  all_chars (λ c, negb (Ascii.eqb "/" c)) ext = true →
  includes (word +:+ ("/code/" +:+ (id +:+ String "." ext)))
    ("/code/" +:+ (id +:+ ".out"))
  = false.
Proof.
  intros Hid Hword Hext Hext'.
  assert (Hfree : all_chars (λ c, negb (Ascii.eqb "/" c)) id = true).
  { eapply all_chars_impl; [| by apply uuid_chars].
    intros c Hc. by rewrite (uuid_char_not_slash _ Hc). }
  assert (Hhead : ∀ r, starts_with ("code/" +:+ (id +:+ ".out")) (id +:+ r) = false).
  { intros r. unfold is_uuid in Hid.
    apply andb_true_iff in Hid as [Hlen Hshape].
    destruct id as [|a [|b id]]; [done | done |].
    cbn [uuid_shape] in Hshape. apply andb_true_iff in Hshape as [_ Hshape].
    apply andb_true_iff in Hshape as [Hb _]. cbn in Hb.
    cbn [String.append starts_with]. rewrite (hex_not_o _ Hb).
    by destruct (Ascii.eqb "c" a). }
  set (P := "/code/" +:+ (id +:+ ".out")).
  assert (HP : P = String "/" ("code/" +:+ (id +:+ ".out"))) by done.
  rewrite HP, includes_free by done. rewrite <- HP.
  change ("/code/" +:+ (id +:+ String "." ext))
    with (String "/" ("code" +:+ (String "/" (id +:+ String "." ext)))).
  rewrite includes_cons.
  change (String "/" ("code" +:+ String "/" (id +:+ String "." ext)))
    with ("/code/" +:+ (id +:+ String "." ext)).
  unfold P at 1. rewrite !starts_with_same_head, Hext. cbn [orb].
  rewrite HP, includes_free by done.
  rewrite includes_cons. cbn [starts_with]. rewrite Ascii.eqb_refl, Hhead.
  cbn [andb orb].
  rewrite includes_free by done.
  apply includes_free_end. cbn [all_chars]. by rewrite Hext'.
Qed.

Lemma binary_path_plain (id : string) :
  is_uuid id = true → plain ("/code/" ++ id ++ ".out") = true.
Proof. intros Hid. by rewrite !plain_append, (uuid_plain _ Hid). Qed.

Lemma source_path_plain (id ext : string) :
  is_uuid id = true → plain ext = true →
  plain ("/code/" ++ id ++ String "." ext) = true.
Proof.
  intros Hid Hext. rewrite !plain_append, (uuid_plain _ Hid).
  unfold plain in *. cbn. exact Hext.
Qed.

(** X14. The artifact set of a job in each catalog language: the source
    file, with the class file for Java and the compiled binary for C and
    C++; a python or node job has the source file alone. *)
Lemma artifact_set_catalog (env : Env) (job : Job) :
  is_uuid (uuidv4 env) = true →
  (job_language job = VStr "java" →
   artifact_set env job
   = [path_join CODE_DIR (java_class_name (job_code job) ++ ".java");
      path_join CODE_DIR (java_class_name (job_code job) ++ ".class")]) ∧
  (job_language job = VStr "c" →
   artifact_set env job
   = [path_join CODE_DIR (uuidv4 env ++ ".c");
      path_join CODE_DIR (uuidv4 env ++ ".out")]) ∧
  (job_language job = VStr "cpp" →
   artifact_set env job
   = [path_join CODE_DIR (uuidv4 env ++ ".cpp");
      path_join CODE_DIR (uuidv4 env ++ ".out")]) ∧
  (job_language job = VStr "python" →
   artifact_set env job = [path_join CODE_DIR (uuidv4 env ++ ".py")]) ∧
  (job_language job = VStr "node" →
   artifact_set env job = [path_join CODE_DIR (uuidv4 env ++ ".js")]).
Proof.
  intros Hid. pose proof (binary_path_plain _ Hid) as Hout.
  repeat split; intros Hl; unfold artifact_set; rewrite Hl;
    cbn [to_property_key to_string].
  - rewrite language_setup_java, java_entry.
    cbn [strict_eq_str String.eqb Ascii.eqb Bool.eqb negb].
    by rewrite andb_false_r.
  - replace (get_language "c")
      with (Own {| ext := "c"; compileCmd := "gcc {file} -o {output} && {output}";
                   dockerImage := "gcc:13" |}) by by vm_compute.
    cbn [language_setup strict_eq_str String.eqb Ascii.eqb Bool.eqb negb
         containerCodePath className filesToCleanup ext_text ext compileCmd].
    rewrite format_c by (try done; by apply source_path_plain).
    rewrite andb_true_r.
    replace (includes _ _) with true; [done |].
    symmetry. apply (includes_later "gcc "), includes_later,
      (includes_later " -o "), includes_here.
  - replace (get_language "cpp")
      with (Own {| ext := "cpp"; compileCmd := "g++ {file} -o {output} && {output}";
                   dockerImage := "gcc:13" |}) by by vm_compute.
    cbn [language_setup strict_eq_str String.eqb Ascii.eqb Bool.eqb negb
         containerCodePath className filesToCleanup ext_text ext compileCmd].
    rewrite format_cpp by (try done; by apply source_path_plain).
    rewrite andb_true_r.
    replace (includes _ _) with true; [done |].
    symmetry. apply (includes_later "g++ "), includes_later,
      (includes_later " -o "), includes_here.
  - replace (get_language "python")
      with (Own {| ext := "py"; compileCmd := "python3 {file}";
                   dockerImage := "python" |}) by by vm_compute.
    cbn [language_setup strict_eq_str String.eqb Ascii.eqb Bool.eqb negb
         containerCodePath className filesToCleanup ext_text ext compileCmd].
    rewrite format_python by (try done; by apply source_path_plain).
    by rewrite (script_command_has_no_binary "python3 " "py").
  - replace (get_language "node")
      with (Own {| ext := "js"; compileCmd := "node {file}";
                   dockerImage := "node" |}) by by vm_compute.
    cbn [language_setup strict_eq_str String.eqb Ascii.eqb Bool.eqb negb
         containerCodePath className filesToCleanup ext_text ext compileCmd].
    rewrite format_node by (try done; by apply source_path_plain).
    by rewrite (script_command_has_no_binary "node " "js").
Qed.

End ArtifactSetFacts.

(** ** Expansion of the command template of a job *)

Module ExpansionFacts.
Import JsString JsStringFacts JsValue JsRegExp App Platform.
Import CommandFacts NamingFacts Examples.

(** C7. For every job, the expansion of a template with the texts the
    worker binds (the container path of the source, the container path of
    the binary, the class name) turns every occurrence of [{file}], then
    every occurrence of [{output}], then every occurrence of
    [{classname}] into its binding and keeps all other text; in the C
    template both occurrences of [{output}] become the same binding. *)
Theorem template_expansion_replaces_all (env : Env) (job : Job) (key : string)
  (st : Setup) (template : string) :
  is_uuid (uuidv4 env) = true → set_up env job key st →
  (∃ s1 s2,
     replaced "{file}" (containerCodePath st) template s1 ∧
     replaced "{output}" ("/code/" ++ uuidv4 env ++ ".out") s1 s2 ∧
     replaced "{classname}" (className st) s2
       (formatCommand template
          {| file := containerCodePath st;
             output := "/code/" ++ uuidv4 env ++ ".out";
             classname := className st |})) ∧
  formatCommand "gcc {file} -o {output} && {output}"
    {| file := containerCodePath st;
       output := "/code/" ++ uuidv4 env ++ ".out";
       classname := className st |}
  = "gcc " ++ containerCodePath st
    ++ " -o " ++ ("/code/" ++ uuidv4 env ++ ".out")
    ++ " && " ++ ("/code/" ++ uuidv4 env ++ ".out").
Proof.
  intros Hid Hup.
  destruct (worker_bindings_plain env job key st Hid Hup) as (Hf & Ho & Hc).
  split.
  - apply (formatCommand_replaced template
             {| file := containerCodePath st;
                output := "/code/" ++ uuidv4 env ++ ".out";
                classname := className st |}); by apply plain_no_dollar.
  - by apply format_c.
Qed.

Lemma template_expansion_replaces_all_witness :
  (∃ s1 s2,
     replaced "{file}" ("/code/" ++ uuid_a ++ ".c")
       "gcc {file} -o {output} && {output}" s1 ∧
     replaced "{output}" ("/code/" ++ uuid_a ++ ".out") s1 s2 ∧
     replaced "{classname}" "Main" s2
       (formatCommand "gcc {file} -o {output} && {output}"
          {| file := "/code/" ++ uuid_a ++ ".c";
             output := "/code/" ++ uuid_a ++ ".out";
             classname := "Main" |})) ∧
  formatCommand "gcc {file} -o {output} && {output}"
    {| file := "/code/" ++ uuid_a ++ ".c";
       output := "/code/" ++ uuid_a ++ ".out";
       classname := "Main" |}
  = "gcc " ++ ("/code/" ++ uuid_a ++ ".c")
    ++ " -o " ++ ("/code/" ++ uuid_a ++ ".out")
    ++ " && " ++ ("/code/" ++ uuid_a ++ ".out").
Proof.
  apply (template_expansion_replaces_all
           (quiet_env uuid_a (Exit 0 EmptyString EmptyString)) c_warning "c"
           {| filename := uuid_a ++ ".c"; className := "Main";
              filepath := path_join CODE_DIR (uuid_a ++ ".c");
              containerCodePath := "/code/" ++ uuid_a ++ ".c";
              filesToCleanup := [path_join CODE_DIR (uuid_a ++ ".c")] |}
           "gcc {file} -o {output} && {output}").
  - vm_compute. reflexivity.
  - split; vm_compute; reflexivity.
Defined.

End ExpansionFacts.

(** ** More on the clean-up loop *)

Module CleanupFacts.
Import JsString JsValue App WorkerFacts Examples.

(** One round of the loop, by case: the path is looked at; it is
    unlinked when it is there, and an error of the unlink is dropped. *)
Lemma cleanup_round_cases (env : Env) (p : string) (fs : gmap string File) :
  try_catch
    (let* found := stat_exists p in
     if found then unlink env p else ret tt)
    (λ _, ret tt) fs
  = match fs !! p, fs_error env (FsUnlink p) with
    | None, _ => (Normal tt, fs, [EvStat p])
    | Some _, Some _ => (Normal tt, fs, [EvStat p; EvUnlink p])
    | Some _, None => (Normal tt, delete p fs, [EvStat p; EvUnlink p])
    end.
Proof.
  unfold try_catch, bind, stat_exists, unlink, ret.
  destruct (fs !! p) as [f|] eqn:Hp.
  - rewrite bool_decide_eq_true_2 by eauto. rewrite Hp.
    by destruct (fs_error env (FsUnlink p)).
  - by rewrite bool_decide_eq_false_2 by (intros [? ?]; congruence).
Qed.

Lemma cleanupFiles_cons (env : Env) (p : string) (paths : list string)
  (fs : gmap string File) :
  cleanupFiles env (p :: paths) fs
  = match fs !! p, fs_error env (FsUnlink p) with
    | None, _ =>
        let '(r, fs', evs) := cleanupFiles env paths fs in
        (r, fs', EvStat p :: evs)
    | Some _, Some _ =>
        let '(r, fs', evs) := cleanupFiles env paths fs in
        (r, fs', EvStat p :: EvUnlink p :: evs)
    | Some _, None =>
        let '(r, fs', evs) := cleanupFiles env paths (delete p fs) in
        (r, fs', EvStat p :: EvUnlink p :: evs)
    end.
Proof.
  cbn [cleanupFiles]. unfold bind at 1. rewrite cleanup_round_cases.
  destruct (fs !! p), (fs_error env (FsUnlink p));
    by destruct (cleanupFiles env paths _) as [[r fs'] evs].
Qed.

(** X1. [cleanupFiles] never throws, whatever the file system answers;
    it leaves every file that is not on its list as it was, and it adds
    or changes no file. *)
Theorem cleanup_never_throws (env : Env) (paths : list string)
  (fs : gmap string File) :
  ∃ fs' evs,
    cleanupFiles env paths fs = (Normal tt, fs', evs) ∧
    (∀ q, q ∉ paths → fs' !! q = fs !! q) ∧
    (∀ q f, fs' !! q = Some f → fs !! q = Some f).
Proof.
  destruct (cleanupFiles_spec env paths fs) as (fs' & evs & Heq & Hframe & _).
  exists fs', evs. split; [done |]. split.
  - intros q Hq. by destruct (Hframe q) as [?|[? _]].
  - intros q f Hf. destruct (Hframe q) as [Hq|[_ Hq]]; congruence.
Qed.

(** X2. [cleanupFiles] looks at every path of its list, unlinks only
    paths of the list that were in the workspace when it started (a
    missing file is skipped, not an error), and makes no other call. *)
Theorem cleanup_unlinks_only_existing (env : Env) (paths : list string)
  (fs : gmap string File) :
  (∀ p, p ∈ paths → EvStat p ∈ (cleanupFiles env paths fs).2) ∧
  (∀ p, EvUnlink p ∈ (cleanupFiles env paths fs).2 →
        p ∈ paths ∧ is_Some (fs !! p)) ∧
  (∀ e, e ∈ (cleanupFiles env paths fs).2 →
        ∃ p, p ∈ paths ∧ (e = EvStat p ∨ e = EvUnlink p)).
Proof.
  split; [| split].
  - revert fs. induction paths as [|p paths IH]; intros fs q Hq.
    + by apply elem_of_nil in Hq.
    + rewrite cleanupFiles_cons.
      assert (Hrest : ∀ fs0, q ∈ paths → EvStat q ∈ (cleanupFiles env paths fs0).2)
        by (intros fs0 ?; by apply IH).
      apply elem_of_cons in Hq as [->|Hq].
      * destruct (fs !! p), (fs_error env (FsUnlink p));
          destruct (cleanupFiles env paths _) as [[r fs'] evs];
          apply list_elem_of_here.
      * destruct (fs !! p), (fs_error env (FsUnlink p));
          [specialize (Hrest fs Hq) | specialize (Hrest (delete p fs) Hq)
          | specialize (Hrest fs Hq) | specialize (Hrest fs Hq)];
          destruct (cleanupFiles env paths _) as [[r fs'] evs]; cbn [snd] in *;
          repeat apply list_elem_of_further; done.
  - revert fs. induction paths as [|p paths IH]; intros fs q Hq.
    + cbn in Hq. by apply elem_of_nil in Hq.
    + rewrite cleanupFiles_cons in Hq.
      destruct (fs !! p) as [f|] eqn:Hp;
        [destruct (fs_error env (FsUnlink p)) |].
      * pose proof (IH fs q) as Hrest.
        destruct (cleanupFiles env paths fs) as [[r fs'] evs]; cbn [snd] in *.
        apply elem_of_cons in Hq as [[=]|Hq].
        apply elem_of_cons in Hq as [[= ->]|Hq].
        -- split; [apply list_elem_of_here | eauto].
        -- destruct (Hrest Hq). split; [by apply list_elem_of_further | done].
      * pose proof (IH (delete p fs) q) as Hrest.
        destruct (cleanupFiles env paths (delete p fs)) as [[r fs'] evs];
          cbn [snd] in *.
        apply elem_of_cons in Hq as [[=]|Hq].
        apply elem_of_cons in Hq as [[= ->]|Hq].
        -- split; [apply list_elem_of_here | eauto].
        -- destruct (Hrest Hq) as [Hin [g Hg]].
           split; [by apply list_elem_of_further |].
           destruct (decide (p = q)) as [->|Hne].
           ++ by rewrite lookup_delete_eq in Hg.
           ++ rewrite lookup_delete_ne in Hg by done. eauto.
      * pose proof (IH fs q) as Hrest.
        destruct (cleanupFiles env paths fs) as [[r fs'] evs]; cbn [snd] in *.
        apply elem_of_cons in Hq as [[=]|Hq].
        destruct (Hrest Hq). split; [by apply list_elem_of_further | done].
  - intros e He.
    destruct (cleanupFiles_spec env paths fs) as (fs' & evs & Heq & _ & _ & Hev).
    rewrite Heq in He. cbn [snd] in He.
    rewrite Forall_forall in Hev. exact (Hev _ He).
Qed.




End CleanupFacts.

(** ** More on the runs of the worker *)

Module RunFacts.
Import JsString JsStringFacts JsValue JsRegExp App Platform.
Import WorkerFacts OutcomeFacts NamingFacts Examples MoreExamples.

(** X4. A job completes only if its container was run and exited with
    status 0; the value the job returns is the stdout captured from that
    run, and either nothing was written to stderr or the language is none
    of the strings java, c and cpp. *)
Theorem completed_only_after_exit_zero (env : Env) (job : Job)
  (fs : gmap string File) (out : string) :
  (process_job env job fs).1.1 = Completed out →
  ∃ cmd err,
    EvExec cmd EXEC_TIMEOUT (Exit 0 out err) ∈ (process_job env job fs).2 ∧
    (err = EmptyString
     ∨ (job_language job ≠ VStr "java" ∧ job_language job ≠ VStr "c"
        ∧ job_language job ≠ VStr "cpp")).
Proof.
  destruct (process_job_worker env job fs) as (r & fs' & evs & _ & Hpath & ->).
  cbn [fst snd]. intros Hres.
  remember (r, fs', evs) as run eqn:Hrun.
  destruct Hpath as [?|?|?|?|?|?|?|?
    |key st d out' err fs1 fs2 evs' Hup Hw Hc Hcfg Hsb Hcase Hclean];
    injection Hrun as <- <- <-; try discriminate Hres.
  injection Hres as ->.
  eexists _, err. split.
  - do 2 apply list_elem_of_further. apply list_elem_of_here.
  - destruct Hcase as [->|Hlang]; [by left | right].
    repeat split; intros Hl;
      assert (compiled_language (job_language job) = true)
        by (apply compiled_language_iff; tauto); congruence.
Qed.

Lemma completed_only_after_exit_zero_witness :
  ∃ cmd err,
    EvExec cmd EXEC_TIMEOUT (Exit 0 "hi" err)
      ∈ (process_job (quiet_env uuid_a (Exit 0 "hi" "note")) python_hello ∅).2 ∧
    (err = EmptyString
     ∨ (job_language python_hello ≠ VStr "java"
        ∧ job_language python_hello ≠ VStr "c"
        ∧ job_language python_hello ≠ VStr "cpp")).
Proof.
  apply (completed_only_after_exit_zero
           (quiet_env uuid_a (Exit 0 "hi" "note")) python_hello ∅ "hi").
  vm_compute. reflexivity.
Defined.





Lemma inherited_not_java (language : value) (key name : string) :
  to_property_key language = Some key → get_language key = Inherited name →
  language ≠ VStr "java".
Proof.
  intros Hkey Hcfg ->. injection Hkey as <-. by rewrite java_entry in Hcfg.
Qed.

(** X7. A job whose language is not a catalog tag but a name inherited
    from [Object.prototype] (such a job passes the check of the route)
    never starts a container. When the file-system calls go through, the
    worker writes the source to [CODE_DIR/<uuid>.undefined], fails with
    the TypeError of [undefined.replaceAll], and leaves that file in the
    workspace. *)
Theorem inherited_language_job_fails (env : Env) (job : Job)
  (fs : gmap string File) (key name : string) :
  to_property_key (job_language job) = Some key →
  get_language key = Inherited name →
  (∀ cmd t res, EvExec cmd t res ∉ (process_job env job fs).2) ∧
  (fs_error env (FsWriteFile (path_join CODE_DIR (uuidv4 env ++ ".undefined"))) = None →
   fs_error env (FsChmod (path_join CODE_DIR (uuidv4 env ++ ".undefined"))) = None →
   process_job env job fs
   = (Failed "Cannot read properties of undefined (reading 'replaceAll')",
      <[path_join CODE_DIR (uuidv4 env ++ ".undefined")
        := {| content := job_code job; mode := DEFAULT_FILE_PERMISSIONS |}]> fs,
      [EvWriteFile (path_join CODE_DIR (uuidv4 env ++ ".undefined")) (job_code job);
       EvChmod (path_join CODE_DIR (uuidv4 env ++ ".undefined"))
         DEFAULT_FILE_PERMISSIONS])).
Proof.
  intros Hkey Hcfg.
  pose proof (inherited_not_java _ _ _ Hkey Hcfg) as Hl.
  split.
  - intros cmd t res Hin.
    destruct (process_job_worker env job fs) as (r & fs' & evs & _ & Hpath & Heq).
    rewrite Heq in Hin. cbn [snd] in Hin.
    destruct (exec_event_inv env job fs _ cmd t res Hpath Hin)
      as (key' & st & d & fs_s & [Hkey' _] & Hcfg' & _).
    congruence.
  - intros Hw Hc.
    apply strict_eq_str_false in Hl.
    unfold process_job, worker. rewrite Hkey. unfold language_setup.
    rewrite Hl, Hcfg. cbn [ext_text filepath].
    change ("." ++ "undefined") with ".undefined".
    unfold try_catch, bind at 1, writeFile. rewrite Hw.
    unfold bind at 1, chmod. rewrite Hc, lookup_insert_eq, insert_insert_eq.
    reflexivity.
Qed.

Lemma inherited_language_job_fails_witness :
  process_job (quiet_env uuid_a (Exit 0 EmptyString EmptyString))
    constructor_job ∅
  = (Failed "Cannot read properties of undefined (reading 'replaceAll')",
     <[path_join CODE_DIR (uuid_a ++ ".undefined")
       := {| content := "x"; mode := DEFAULT_FILE_PERMISSIONS |}]> ∅,
     [EvWriteFile (path_join CODE_DIR (uuid_a ++ ".undefined")) "x";
      EvChmod (path_join CODE_DIR (uuid_a ++ ".undefined"))
        DEFAULT_FILE_PERMISSIONS]).
Proof.
  refine (proj2 (inherited_language_job_fails
           (quiet_env uuid_a (Exit 0 EmptyString EmptyString))
           constructor_job ∅ "constructor" "constructor" _ _) _ _);
    reflexivity.
Defined.

(** X8. In every run that starts a container, the first three calls of
    the worker are the write of the source, the chmod of the source to
    0o644 and the one [exec] call; every later call is a stat or an
    unlink of the clean-up. So at most one container is started per job,
    and never before the source is in place. *)
Theorem exec_follows_write (env : Env) (job : Job) (fs : gmap string File)
  (cmd : string) (t : N) (res : proc_exit) :
  EvExec cmd t res ∈ (process_job env job fs).2 →
  ∃ path rest,
    (process_job env job fs).2
    = ([EvWriteFile path (job_code job); EvChmod path 420;
        EvExec cmd t res] ++ rest)%list ∧
    ∀ e, e ∈ rest → ∃ p, e = EvStat p ∨ e = EvUnlink p.
Proof.
  destruct (process_job_worker env job fs) as (r & fs' & evs & _ & Hpath & ->).
  intros Hin. cbn [fst snd] in *.
  destruct (exec_event_inv env job fs _ cmd t _ Hpath Hin)
    as (key & st & d & fs_s & _ & _ & _ & -> & _ & Hafter).
  exists (filepath st).
  destruct Hafter as [[_ [= _ _ ->]]
    |[(out' & err' & _ & _ & _ & [= _ _ ->])
     |(out' & err' & fs'' & evs' & _ & _ & Hclean & [= _ _ ->])]].
  - exists []. split; [done |]. intros e He. by apply elem_of_nil in He.
  - exists []. split; [done |]. intros e He. by apply elem_of_nil in He.
  - exists evs'. split; [done |]. intros e He.
    pose proof (cleanup_events _ _ _ _ _ Hclean) as Hall.
    rewrite Forall_forall in Hall.
    destruct (Hall _ He) as (p & _ & Hp). by exists p.
Qed.

Lemma exec_follows_write_witness :
  ∃ path rest,
    (process_job (quiet_env uuid_a (Exit 0 "hi" EmptyString)) python_hello ∅).2
    = ([EvWriteFile path (job_code python_hello); EvChmod path 420;
        EvExec (dockerCmd "python" ("python3 /code/" ++ uuid_a ++ ".py"))
          EXEC_TIMEOUT (Exit 0 "hi" EmptyString)] ++ rest)%list ∧
    ∀ e, e ∈ rest → ∃ p, e = EvStat p ∨ e = EvUnlink p.
Proof.
  apply (exec_follows_write (quiet_env uuid_a (Exit 0 "hi" EmptyString))
           python_hello ∅).
  vm_compute. do 2 apply list_elem_of_further. apply list_elem_of_here.
Defined.



(** X10. A job whose language is a catalog tag gets as far as its
    container whenever the two file-system calls that write the source go
    through: the worker calls [exec] on the command line built from the
    image and the template of that tag. *)
Theorem catalog_job_reaches_container (env : Env) (job : Job)
  (fs : gmap string File) (l : string) (d : LangConfig) :
  job_language job = VStr l → LANGUAGES !! l = Some d →
  (∀ p, fs_error env (FsWriteFile p) = None) →
  (∀ p, fs_error env (FsChmod p) = None) →
  ∃ st res,
    language_setup (VStr l) (job_code job) (Own d) (uuidv4 env) = Some st ∧
    EvExec (dockerCmd (dockerImage d) (compile_command d st (uuidv4 env)))
      EXEC_TIMEOUT res ∈ (process_job env job fs).2.
Proof.
  intros Hl Hd Hw Hc.
  assert (Hcfg : get_language l = Own d) by by apply SandboxFacts.get_language_Own.
  destruct (PostRunFacts.language_setup_defined (VStr l) (job_code job) (Own d)
              (uuidv4 env)) as [st Hst]; [done |].
  assert (Hup : set_up env job l st).
  { split; [by rewrite Hl | by rewrite Hl, Hcfg]. }
  destruct (process_job_worker env job fs) as (r & fs' & evs & _ & Hpath & ->).
  cbn [snd]. exists st.
  remember (r, fs', evs) as run eqn:Hrun.
  destruct Hpath as [Hk|key' Hk Hs
    |key' st' msg [Hk Hs] Hw'|key' st' msg [Hk Hs] Hw' Hc'
    |key' st' name [Hk Hs] Hw' Hc' Hcfg'|key' st' [Hk Hs] Hw' Hc' Hcfg'
    |key' st' d' res fs1 [Hk Hs] Hw' Hc' Hcfg' Hsb Hok
    |key' st' d' out err fs1 [Hk Hs] Hw' Hc' Hcfg' Hsb Herr Hlang
    |key' st' d' out err fs1 fs2 evs' [Hk Hs] Hw' Hc' Hcfg' Hsb Hcase Hclean];
    injection Hrun as <- <- <-;
    destruct Hup as [Hkey Hst'];
    rewrite Hkey in Hk; try discriminate Hk; injection Hk as <-;
    rewrite Hst' in Hs; try discriminate Hs; injection Hs as <-;
    try (rewrite Hw in Hw'; discriminate Hw');
    try (rewrite Hc in Hc'; discriminate Hc');
    rewrite Hcfg in Hcfg'; try discriminate Hcfg'; injection Hcfg' as <-;
    eexists; (split; [exact Hst |]);
    first [ do 2 apply list_elem_of_further; apply list_elem_of_here
          | apply elem_of_app; left;
            do 2 apply list_elem_of_further; apply list_elem_of_here ].
Qed.

Lemma catalog_job_reaches_container_witness :
  ∃ st res,
    language_setup (VStr "python") (job_code python_hello)
      (Own {| ext := "py"; compileCmd := "python3 {file}"; dockerImage := "python" |})
      uuid_a = Some st ∧
    EvExec (dockerCmd "python"
              (compile_command
                 {| ext := "py"; compileCmd := "python3 {file}";
                    dockerImage := "python" |} st uuid_a))
      EXEC_TIMEOUT res
      ∈ (process_job (quiet_env uuid_a (Exit 0 "hi" EmptyString)) python_hello ∅).2.
Proof.
  apply (catalog_job_reaches_container
           (quiet_env uuid_a (Exit 0 "hi" EmptyString)) python_hello ∅ "python"
           {| ext := "py"; compileCmd := "python3 {file}"; dockerImage := "python" |}).
  - reflexivity.
  - vm_compute. reflexivity.
  - intros p. reflexivity.
  - intros p. reflexivity.
Defined.

End RunFacts.

(** ** What the container is given *)

Module ContainerFacts.
Import JsString JsStringFacts JsValue JsRegExp JsRegExpFacts App Platform.
Import ClassNameFacts WorkerFacts CommandFacts NamingFacts ArtifactSetFacts.
Import Traces Examples MoreExamples.




Lemma setup_paths (language : value) (code : string) (p : property)
  (id : string) (st : Setup) :
  language_setup language code p id = Some st →
  filepath st = path_join CODE_DIR (filename st) ∧
  containerCodePath st = "/code/" ++ filename st.
Proof.
  unfold language_setup. destruct (strict_eq_str language "java").
  - by intros [= <-].
  - destruct p; by intros [= <-].
Qed.




Lemma ident_char_not_slash (c : ascii) :
  is_ident_char c = true → negb (is_slash c) = true.
Proof. destruct c as [[] [] [] [] [] [] [] []]; done. Qed.

Lemma uuid_char_no_slash (c : ascii) :
  is_hex c || is_dash c = true → negb (is_slash c) = true.
Proof. destruct c as [[] [] [] [] [] [] [] []]; done. Qed.

Lemma ident_start_not_dot (c : ascii) :
  is_ident_start c = true → negb (Ascii.eqb c ".") = true.
Proof. destruct c as [[] [] [] [] [] [] [] []]; done. Qed.

Lemma safe_segment_append (a b : string) :
  safe_segment a = true → all_chars (λ c, negb (is_slash c)) b = true →
  safe_segment (a +:+ b) = true.
Proof.
  destruct a as [|c a]; [done |]. cbn [safe_segment String.append].
  intros [Hc Ha]%andb_true_iff Hb. rewrite Hc.
  change (String c (a +:+ b)) with (String c a +:+ b).
  by rewrite all_chars_append, Ha, Hb.
Qed.

Lemma identifier_safe (cls : string) :
  is_identifier cls = true → safe_segment cls = true.
Proof.
  intros Hid. pose proof (identifier_all_chars _ Hid) as Hall.
  destruct (identifier_inv _ Hid) as (c & r & -> & Hc & _).
  cbn [safe_segment]. rewrite (ident_start_not_dot _ Hc).
  eapply all_chars_impl; [apply ident_char_not_slash | exact Hall].
Qed.

Lemma uuid_safe (id : string) : is_uuid id = true → safe_segment id = true.
Proof.
  intros Hid. pose proof (uuid_chars _ Hid) as Hall.
  pose proof (uuid_no_dot _ Hid) as Hdot.
  destruct id as [|c id]; [done |]. cbn [safe_segment].
  cbn [all_chars] in Hdot. apply andb_true_iff in Hdot as [-> _].
  eapply all_chars_impl; [apply uuid_char_no_slash | exact Hall].
Qed.

Lemma ext_text_no_slash (key : string) :
  all_chars (λ c, negb (is_slash c)) (ext_text (get_language key)) = true.
Proof.
  unfold get_language.
  destruct (LANGUAGES !! key) as [d|] eqn:Hd; [| by case_bool_decide].
  apply catalog_inv in Hd.
  repeat (apply elem_of_cons in Hd as [[= _ ->]|Hd]; [done |]).
  by apply elem_of_nil in Hd.
Qed.

(** The name and the clean-up list of a setup stay in the code
    directory. *)
Lemma setup_names_safe (language : value) (code key id : string) (st : Setup) :
  is_uuid id = true →
  language_setup language code (get_language key) id = Some st →
  safe_segment (filename st) = true ∧
  ∀ p, p ∈ filesToCleanup st →
       ∃ name, p = path_join CODE_DIR name ∧ safe_segment name = true.
Proof.
  intros Hid Hst.
  destruct (strict_eq_str language "java") eqn:Hl.
  - apply strict_eq_str_true in Hl as ->.
    rewrite language_setup_java in Hst. injection Hst as <-.
    cbn [filename filesToCleanup].
    pose proof (identifier_safe _ (java_class_name_identifier code)) as Hcls.
    split; [by apply safe_segment_append |].
    intros p Hp.
    apply elem_of_cons in Hp as [->|Hp];
      [| apply list_elem_of_singleton in Hp as ->];
      eexists; (split; [reflexivity |]); by apply safe_segment_append.
  - apply strict_eq_str_false in Hl.
    rewrite (language_setup_other _ _ _ _ _ Hl Hst).
    cbn [filename filesToCleanup].
    assert (Hname : safe_segment (id ++ "." ++ ext_text (get_language key)) = true).
    { apply safe_segment_append; [by apply uuid_safe |].
      change ("." ++ ext_text (get_language key))
        with (String "." (ext_text (get_language key))).
      cbn [all_chars]. by rewrite ext_text_no_slash. }
    split; [done |]. intros p Hp. apply list_elem_of_singleton in Hp as ->.
    by eexists.
Qed.

(** X12. Every file-system call of the worker is about a file directly
    inside the code directory: the path is [CODE_DIR], a slash and a name
    that holds no slash and does not start with a dot, whatever the
    submitted code and language are. *)
Theorem worker_stays_in_code_dir (env : Env) (job : Job) (fs : gmap string File)
  (e : event) (p : string) :
  is_uuid (uuidv4 env) = true →
  e ∈ (process_job env job fs).2 → event_path e = Some p →
  ∃ name, p = path_join CODE_DIR name ∧ safe_segment name = true.
Proof.
  intros Hid Hin Hp.
  destruct (process_job_worker env job fs) as (r & fs' & evs & _ & Hpath & Heq).
  rewrite Heq in Hin. cbn [snd] in Hin. clear Heq.
  assert (Hsrc : ∀ key st, set_up env job key st → ∀ q,
            q = filepath st →
            ∃ name, q = path_join CODE_DIR name ∧ safe_segment name = true).
  { intros key st [_ Hst] q ->.
    destruct (setup_paths _ _ _ _ _ Hst) as [-> _].
    destruct (setup_names_safe _ _ _ _ _ Hid Hst) as [Hsafe _]. eauto. }
  assert (Hlist : ∀ key st cmd, set_up env job key st → ∀ q,
            q ∈ cleanup_list (job_language job) st (uuidv4 env) cmd →
            ∃ name, q = path_join CODE_DIR name ∧ safe_segment name = true).
  { intros key st cmd [_ Hst] q Hq.
    destruct (setup_names_safe _ _ _ _ _ Hid Hst) as [_ Hsafe].
    unfold cleanup_list in Hq.
    destruct (includes cmd _ && _); [| by apply Hsafe].
    apply elem_of_app in Hq as [Hq|Hq]; [by apply Hsafe |].
    apply list_elem_of_singleton in Hq as ->.
    eexists. split; [reflexivity |].
    apply safe_segment_append; [by apply uuid_safe | done]. }
  remember (r, fs', evs) as run eqn:Hrun.
  destruct Hpath as [Hk|key Hk Hs
    |key st msg Hup Hw|key st msg Hup Hw Hc
    |key st name Hup Hw Hc Hcfg|key st Hup Hw Hc Hcfg
    |key st d res fs1 Hup Hw Hc Hcfg Hsb Hok
    |key st d out err fs1 Hup Hw Hc Hcfg Hsb Herr Hlang
    |key st d out err fs1 fs2 evs' Hup Hw Hc Hcfg Hsb Hcase Hclean];
    injection Hrun as <- <- <-;
    repeat (apply elem_of_cons in Hin as [->|Hin];
            [try discriminate Hp; injection Hp as <-; by eapply Hsrc |]);
    try (by apply elem_of_nil in Hin).
  pose proof (cleanup_events _ _ _ _ _ Hclean) as Hall.
  rewrite Forall_forall in Hall.
  destruct (Hall _ Hin) as (q & Hq & [->| ->]);
    injection Hp as <-; by eapply Hlist.
Qed.

Lemma worker_stays_in_code_dir_witness :
  ∃ name,
    path_join CODE_DIR (uuid_a ++ ".py") = path_join CODE_DIR name ∧
    safe_segment name = true.
Proof.
  apply (worker_stays_in_code_dir (quiet_env uuid_a (Exit 0 "hi" EmptyString))
           python_hello ∅
           (EvUnlink (path_join CODE_DIR (uuid_a ++ ".py")))).
  - vm_compute. reflexivity.
  - vm_compute. do 4 apply list_elem_of_further. apply list_elem_of_here.
  - reflexivity.
Defined.

End ContainerFacts.

(** ** The command of each catalog language *)

Module CatalogFacts.
Import JsString JsStringFacts JsValue JsRegExp App Platform.
Import ClassNameFacts WorkerFacts CommandFacts NamingFacts ArtifactSetFacts.
Import Examples MoreExamples.

Lemma setup_of_other (env : Env) (job : Job) (key : string) (st : Setup) :
  set_up env job key st → job_language job ≠ VStr "java" →
  containerCodePath st = "/code/" ++ uuidv4 env ++ "." ++ ext_text (get_language key)
  ∧ className st = "Main".
Proof.
  intros [_ Hst] Hl. by rewrite (language_setup_other _ _ _ _ _ Hl Hst).
Qed.

(** X13. The command a job runs in its container, for each catalog
    language: C and C++ compile the source to [/code/<uuid>.out] and run
    that binary, Python and Node run the source file, and Java compiles
    [/code/<Class>.java] and runs the class, the class name being the one
    taken from the source. *)
Theorem catalog_commands (env : Env) (job : Job) (key : string) (st : Setup)
  (d : LangConfig) :
  is_uuid (uuidv4 env) = true → set_up env job key st →
  get_language key = Own d →
  (job_language job = VStr "c" →
   compile_command d st (uuidv4 env)
   = "gcc /code/" ++ uuidv4 env ++ ".c -o /code/" ++ uuidv4 env
     ++ ".out && /code/" ++ uuidv4 env ++ ".out") ∧
  (job_language job = VStr "cpp" →
   compile_command d st (uuidv4 env)
   = "g++ /code/" ++ uuidv4 env ++ ".cpp -o /code/" ++ uuidv4 env
     ++ ".out && /code/" ++ uuidv4 env ++ ".out") ∧
  (job_language job = VStr "python" →
   compile_command d st (uuidv4 env) = "python3 /code/" ++ uuidv4 env ++ ".py") ∧
  (job_language job = VStr "node" →
   compile_command d st (uuidv4 env) = "node /code/" ++ uuidv4 env ++ ".js") ∧
  (job_language job = VStr "java" →
   compile_command d st (uuidv4 env)
   = "javac /code/" ++ java_class_name (job_code job) ++ ".java && java "
     ++ java_class_name (job_code job)).
Proof.
  intros Hid Hup Hcfg.
  destruct (worker_bindings_plain env job key st Hid Hup) as (Hf & Ho & Hc).
  pose proof Hup as [Hkey Hst].
  repeat split; intros Hl; rewrite Hl in Hkey; injection Hkey as <-.
  - assert (Hne : job_language job ≠ VStr "java") by by rewrite Hl.
    destruct (setup_of_other env job _ st Hup Hne) as [Hcp Hcls].
    replace (get_language "c")
      with (Own {| ext := "c"; compileCmd := "gcc {file} -o {output} && {output}";
                   dockerImage := "gcc:13" |}) in * by by vm_compute.
    injection Hcfg as <-. unfold compile_command. cbn [compileCmd].
    rewrite format_c by done. rewrite Hcp. cbn [ext_text ext].
    simpl. by rewrite !append_assoc.
  - assert (Hne : job_language job ≠ VStr "java") by by rewrite Hl.
    destruct (setup_of_other env job _ st Hup Hne) as [Hcp Hcls].
    replace (get_language "cpp")
      with (Own {| ext := "cpp"; compileCmd := "g++ {file} -o {output} && {output}";
                   dockerImage := "gcc:13" |}) in * by by vm_compute.
    injection Hcfg as <-. unfold compile_command. cbn [compileCmd].
    rewrite format_cpp by done. rewrite Hcp. cbn [ext_text ext].
    simpl. by rewrite !append_assoc.
  - assert (Hne : job_language job ≠ VStr "java") by by rewrite Hl.
    destruct (setup_of_other env job _ st Hup Hne) as [Hcp Hcls].
    replace (get_language "python")
      with (Own {| ext := "py"; compileCmd := "python3 {file}";
                   dockerImage := "python" |}) in * by by vm_compute.
    injection Hcfg as <-. unfold compile_command. cbn [compileCmd].
    rewrite format_python by done. rewrite Hcp. cbn [ext_text ext].
    simpl. by rewrite ?append_assoc.
  - assert (Hne : job_language job ≠ VStr "java") by by rewrite Hl.
    destruct (setup_of_other env job _ st Hup Hne) as [Hcp Hcls].
    replace (get_language "node")
      with (Own {| ext := "js"; compileCmd := "node {file}";
                   dockerImage := "node" |}) in * by by vm_compute.
    injection Hcfg as <-. unfold compile_command. cbn [compileCmd].
    rewrite format_node by done. rewrite Hcp. cbn [ext_text ext].
    simpl. by rewrite ?append_assoc.
  - rewrite java_entry in Hcfg. injection Hcfg as <-.
    unfold compile_command. cbn [compileCmd].
    rewrite format_java by done.
    rewrite Hl, language_setup_java in Hst. injection Hst as <-.
    cbn [containerCodePath className]. simpl. by rewrite !append_assoc.
Qed.

Lemma catalog_commands_witness :
  compile_command
    {| ext := "cpp"; compileCmd := "g++ {file} -o {output} && {output}";
       dockerImage := "gcc:13" |}
    {| filename := uuid_a ++ ".cpp"; className := "Main";
       filepath := path_join CODE_DIR (uuid_a ++ ".cpp");
       containerCodePath := "/code/" ++ uuid_a ++ ".cpp";
       filesToCleanup := [path_join CODE_DIR (uuid_a ++ ".cpp")] |} uuid_a
  = "g++ /code/" ++ uuid_a ++ ".cpp -o /code/" ++ uuid_a
    ++ ".out && /code/" ++ uuid_a ++ ".out".
Proof.
  refine (proj1 (proj2 (catalog_commands
            (quiet_env uuid_a (Exit 0 EmptyString EmptyString))
            {| job_id := 1; job_language := VStr "cpp"; job_code := "int main(){}" |}
            "cpp" _ _ _ _ _)) _).
  - vm_compute. reflexivity.
  - split; vm_compute; reflexivity.
  - vm_compute. reflexivity.
  - reflexivity.
Defined.

(** The artifact set of a python job, computed. *)
Lemma artifact_set_catalog_witness :
  artifact_set (quiet_env uuid_a (Exit 0 EmptyString EmptyString)) python_hello
  = [path_join CODE_DIR (uuid_a ++ ".py")].
Proof.
  refine (proj1 (proj2 (proj2 (proj2 (artifact_set_catalog
            (quiet_env uuid_a (Exit 0 EmptyString EmptyString)) python_hello _)))) _).
  - vm_compute. reflexivity.
  - reflexivity.
Defined.

(** X15. The Java branch is taken only when the language is exactly the
    string java. A job whose language is another value with the key
    [java] (a one-element array holding it) gets the Java template but
    the naming of the other languages: the source is stored as
    [<uuid>.java], and the command runs the class [Main] whatever class
    the source declares. *)
Theorem wrapped_java_runs_main (env : Env) (job : Job) (st : Setup) :
  is_uuid (uuidv4 env) = true → set_up env job "java" st →
  job_language job ≠ VStr "java" →
  filename st = uuidv4 env ++ ".java" ∧ className st = "Main" ∧
  ∃ d, get_language "java" = Own d ∧
       compile_command d st (uuidv4 env)
       = "javac /code/" ++ uuidv4 env ++ ".java && java Main".
Proof.
  intros Hid Hup Hne.
  destruct (worker_bindings_plain env job "java" st Hid Hup) as (Hf & Ho & Hc).
  destruct (setup_of_other env job _ st Hup Hne) as [Hcp Hcls].
  destruct Hup as [Hkey Hst].
  pose proof (language_setup_other _ _ _ _ _ Hne Hst) as Heq.
  rewrite java_entry in Heq, Hcp. cbn [ext_text ext] in Heq, Hcp.
  split; [by rewrite Heq |]. split; [done |].
  eexists. split; [apply java_entry |].
  unfold compile_command. cbn [compileCmd].
  rewrite format_java by done. rewrite Hcp, Hcls.
  simpl. by rewrite !append_assoc.
Qed.

Lemma wrapped_java_runs_main_witness :
  uuid_a ++ ".java" = uuid_a ++ ".java" ∧ "Main" = "Main" ∧
  ∃ d, get_language "java" = Own d ∧
       compile_command d
         {| filename := uuid_a ++ ".java"; className := "Main";
            filepath := path_join CODE_DIR (uuid_a ++ ".java");
            containerCodePath := "/code/" ++ uuid_a ++ ".java";
            filesToCleanup := [path_join CODE_DIR (uuid_a ++ ".java")] |} uuid_a
       = "javac /code/" ++ uuid_a ++ ".java && java Main".
Proof.
  apply (wrapped_java_runs_main
           (quiet_env uuid_a (Exit 0 EmptyString EmptyString)) wrapped_java_job
           {| filename := uuid_a ++ ".java"; className := "Main";
              filepath := path_join CODE_DIR (uuid_a ++ ".java");
              containerCodePath := "/code/" ++ uuid_a ++ ".java";
              filesToCleanup := [path_join CODE_DIR (uuid_a ++ ".java")] |}).
  - vm_compute. reflexivity.
  - split; vm_compute; reflexivity.
  - discriminate.
Defined.

End CatalogFacts.

(** ** More on POST /run *)

Module ValidationFacts.
Import JsString JsValue JsRegExp App NamingFacts PostRunFacts Examples MoreExamples.

(** X16. [POST /run] changes the queue only when it answers 202, and
    then by exactly one job: the job carries the language of the request
    unchanged and its code, which is a non-empty string, and the answer
    holds the id the queue gave to that job. Every other answer leaves
    the queue as it was. *)
Theorem post_run_queue_effect (req : Request) (q : Queue) :
  ((post_run req q).2 = q ∧
   ∀ r, (post_run req q).1 = Responded r → status r = 400 ∨ status r = 500)
  ∨ (∃ s, req_code req = VStr s ∧ s ≠ EmptyString ∧
          (post_run req q).1
          = Responded {| status := 202; json := JobIdBody (next_id q) |} ∧
          jobs (post_run req q).2
          = (jobs q ++ [{| job_id := next_id q;
                           job_language := req_language req;
                           job_code := s |}])%list ∧
          next_id (post_run req q).2 = S (next_id q)).
Proof.
  unfold post_run.
  destruct (negb (truthy (req_code req)) || negb (is_string (req_code req))) eqn:Hcode.
  { left. split; [done |]. intros r [= <-]. by left. }
  destruct (negb (truthy (req_language req))).
  { left. split; [done |]. intros r [= <-]. by left. }
  destruct (to_property_key (req_language req)) as [key|]; [| by left].
  destruct (negb (property_truthy (get_language key))).
  { left. split; [done |]. intros r [= <-]. by left. }
  unfold queue_add. destruct (broker_up q).
  - right. apply orb_false_iff in Hcode as [Ht Hs].
    destruct (req_code req) as [| | | |s| |]; try discriminate Hs.
    exists s. split; [done |]. split; [| done].
    intros ->. discriminate Ht.
  - left. split; [done |]. intros r [= <-]. by right.
Qed.

Lemma number_text_head (n : Z) :
  ∃ c r, NilZero.string_of_int (Z.to_int n) = String c r
         ∧ is_ident_start c = false.
Proof.
  destruct (Z.to_int n) as [d|d].
  - destruct d; by eexists _, _.
  - by eexists _, _.
Qed.

(** The keys that resolve on the catalog start with a letter or an
    underscore. *)
Lemma resolved_key_head (key : string) :
  get_language key ≠ Missing →
  ∃ c r, key = String c r ∧ is_ident_start c = true.
Proof.
  unfold get_language.
  destruct (LANGUAGES !! key) as [d|] eqn:Hd.
  - intros _. apply catalog_inv in Hd.
    repeat (apply elem_of_cons in Hd as [[= -> _]|Hd]; [by eexists _, _ |]).
    by apply elem_of_nil in Hd.
  - case_bool_decide as Hin; [| done]. intros _.
    unfold OBJECT_PROTOTYPE in Hin.
    repeat (apply elem_of_cons in Hin as [->|Hin]; [by eexists _, _ |]).
    by apply elem_of_nil in Hin.
Qed.

Lemma number_key_missing (n : Z) :
  get_language (NilZero.string_of_int (Z.to_int n)) = Missing.
Proof.
  destruct (number_text_head n) as (c & r & Heq & Hc).
  destruct (get_language _) eqn:Hg; [| | done].
  - destruct (resolved_key_head (NilZero.string_of_int (Z.to_int n)))
      as (c' & r' & Heq' & Hc'); [by rewrite Hg |]. congruence.
  - destruct (resolved_key_head (NilZero.string_of_int (Z.to_int n)))
      as (c' & r' & Heq' & Hc'); [by rewrite Hg |]. congruence.
Qed.

(** X17. A request whose language is absent or is [null], a boolean, a
    number or a plain object is never enqueued: whatever its code, the
    queue is left as it was and every answer the route sends is a 400.
    Only a string or an array can name a language. *)
Theorem scalar_language_never_enqueued (req : Request) (q : Queue) :
  match req_language req with
  | VStr _ | VArr _ => False
  | _ => True
  end →
  (post_run req q).2 = q ∧
  ∀ r, (post_run req q).1 = Responded r → status r = 400.
Proof.
  intros Hlang. unfold post_run.
  destruct (negb (truthy (req_code req)) || negb (is_string (req_code req))).
  { split; [done |]. by intros r [= <-]. }
  destruct (req_language req) as [| |b|n|s|items|fields]; try done;
    cbn [truthy negb to_property_key to_string].
  - split; [done |]. by intros r [= <-].
  - split; [done |]. by intros r [= <-].
  - destruct b; cbn [negb]; (split; [done |]); by intros r [= <-].
  - destruct (negb (n =? 0)%Z); cbn [negb].
    + rewrite number_key_missing. cbn. split; [done |]. by intros r [= <-].
    + split; [done |]. by intros r [= <-].
  - destruct (has_own fields "toString"); [done |].
    split; [done |]. by intros r [= <-].
Qed.

Lemma scalar_language_never_enqueued_witness :
  (post_run {| req_language := VNum 42; req_code := VStr "x" |} idle_queue).2
  = idle_queue ∧
  ∀ r, (post_run {| req_language := VNum 42; req_code := VStr "x" |} idle_queue).1
       = Responded r → status r = 400.
Proof.
  apply (scalar_language_never_enqueued
           {| req_language := VNum 42; req_code := VStr "x" |} idle_queue).
  exact I.
Defined.

End ValidationFacts.

(** ** The class name, read against the text *)

Module ClassTextFacts.
Import JsString JsStringFacts JsValue JsRegExp JsRegExpFacts App ClassNameFacts.
Import Examples.

Lemma append_same_length (a b c d : string) :
  a +:+ b = c +:+ d → String.length a = String.length c → a = c ∧ b = d.
Proof.
  revert c. induction a as [|x a IH]; intros [|y c]; simpl; try done.
  intros [= -> Heq] [= Hlen]. by destruct (IH c Heq Hlen) as [-> ->].
Qed.

Lemma declared_not_None (post whole cls : string) :
  class_declared post whole cls → class_at post ≠ None.
Proof.
  intros Hd. destruct (declared_class_at _ _ _ Hd) as (rest & _ & Hat).
  congruence.
Qed.

(** X18. The class name of a Java job, read against the source text
    without the matcher. Either the source holds, at some position, the
    word public, white space, the word class, white space and an
    identifier that the text does not continue; the name is that
    identifier, taken at the first such position. Or no position of the
    source holds such a declaration, and the name is [Main]. *)
Theorem class_name_from_text (code : string) :
  (∃ pre post whole,
      code = pre +:+ post ∧ class_declared post whole (java_class_name code) ∧
      ∀ pre' post' whole' cls', code = pre' +:+ post' →
        (String.length pre' < String.length pre)%nat →
        ¬ class_declared post' whole' cls')
  ∨ (java_class_name code = "Main" ∧
     ∀ pre post whole cls, code = pre +:+ post → ¬ class_declared post whole cls).
Proof.
  destruct (java_class_name_spec code) as [(whole & cls & Hm & ->)|[Hm ->]].
  - left. destruct (regexp_exec_class_Some _ _ Hm)
      as (pre & post & whole' & cls' & Heq & [= <- <-] & Hd & Hleft).
    exists pre, post, whole. split; [done |]. split; [done |].
    intros pre' post' whole' cls' Heq' Hlt Hd'.
    by apply (declared_not_None _ _ _ Hd'), (Hleft pre').
  - right. split; [done |]. by apply regexp_exec_class_None.
Qed.

(** X19. A class declared in the source with no declaration before it
    is the one the Java branch names the file after, whatever follows it
    in the source: later declarations do not count. *)
Theorem declared_class_is_extracted (code pre post whole cls : string) :
  code = pre +:+ post → class_declared post whole cls →
  (∀ pre' post' whole' cls', code = pre' +:+ post' →
     (String.length pre' < String.length pre)%nat →
     ¬ class_declared post' whole' cls') →
  java_class_name code = cls.
Proof.
  intros Heq Hd Hfirst.
  destruct (java_class_name_spec code) as [(whole0 & cls0 & Hm & ->)|[Hm _]].
  - destruct (regexp_exec_class_Some _ _ Hm)
      as (pre0 & post0 & whole' & cls' & Heq0 & [= <- <-] & Hd0 & Hleft).
    destruct (lt_eq_lt_dec (String.length pre0) (String.length pre))
      as [[Hlt|Hlen]|Hgt].
    + by destruct (Hfirst pre0 post0 whole0 cls0).
    + rewrite Heq in Heq0.
      destruct (append_same_length _ _ _ _ Heq0 (eq_sym Hlen)) as [_ ->].
      destruct (declared_class_at _ _ _ Hd) as (rest & _ & Hat).
      destruct (declared_class_at _ _ _ Hd0) as (rest0 & _ & Hat0).
      congruence.
    + by destruct (declared_not_None _ _ _ Hd), (Hleft pre post).
  - by destruct (regexp_exec_class_None _ Hm pre post whole cls).
Qed.

Lemma declared_class_is_extracted_witness :
  java_class_name "import x; public class Greeter { } public class Other { }"
  = "Greeter".
Proof.
  apply (declared_class_is_extracted _
           "import x; "
           "public class Greeter { } public class Other { }"
           "public class Greeter" "Greeter").
  - reflexivity.
  - exists " ", " ", " { } public class Other { }". by repeat split.
  - intros pre' post' whole' cls' Heq Hlt Hd.
    destruct Hd as (w1 & w2 & rest & Hpost & -> & _).
    do 10 (destruct pre' as [|? pre'];
           [simpl in Heq; subst post'; simpl in Hpost; discriminate Hpost |];
           simpl in Heq; injection Heq as <- Heq).
    simpl in Hlt. lia.
Defined.

End ClassTextFacts.

(** ** GET /results/:jobId *)

Module ResultsFacts.
Import JsString JsStringFacts JsValue App WorkerFacts OutcomeFacts.
Import Results Examples.

(** X20. Whenever [GET /results/:jobId] answers with a result body, the
    broker holds the job and the body carries its id and its state,
    whatever the state is: a failed job is reported with the status 200
    as any other. The body holds [output] exactly when the state is
    [completed], and it is the stored return value; it holds [error]
    exactly when the state is [failed], and it is the stored failure
    reason. *)
Theorem results_fields_by_state (getJob : string → option (option StoredJob))
  (jobId : string) (b : ResultBody) :
  get_results getJob jobId = ResultOk b →
  ∃ job,
    jobId ≠ EmptyString ∧ getJob jobId = Some (Some job) ∧
    stored_state job = Some (res_state b) ∧ res_jobId b = stored_id job ∧
    (∀ out, res_output b = Some out
            ↔ res_state b = "completed" ∧ out = stored_returnvalue job) ∧
    (∀ e, res_error b = Some e
          ↔ res_state b = "failed" ∧ e = stored_failedReason job).
Proof.
  unfold get_results. destruct jobId as [|c jobId]; [done |]. cbn [truthy negb].
  destruct (getJob (String c jobId)) as [[job|]|]; [| done | done].
  destruct (stored_state job) as [state|] eqn:Hstate; [| done].
  intros Hb. exists job. split; [done |]. split; [done |].
  destruct (String.eqb state "completed") eqn:Hc.
  { apply String.eqb_eq in Hc as ->. injection Hb as <-. cbn.
    do 2 (split; [done |]). split; intros x; split.
    - by intros [= <-].
    - by intros [_ ->].
    - done.
    - by intros [? _]. }
  destruct (String.eqb state "failed") eqn:Hf.
  { apply String.eqb_eq in Hf as ->. injection Hb as <-. cbn.
    do 2 (split; [done |]). split; intros x; split.
    - done.
    - by intros [? _].
    - by intros [= <-].
    - by intros [_ ->]. }
  apply String.eqb_neq in Hc, Hf.
  assert (res_output b = None ∧ res_error b = None ∧ res_state b = state
          ∧ res_jobId b = stored_id job) as (Ho & He & Hs & Hj).
  { destruct (String.eqb state "active");
      [| destruct (String.eqb state "waiting" || String.eqb state "delayed")];
      by injection Hb as <-. }
  rewrite Ho, He, Hs. do 2 (split; [done |]). split; intros x; split.
  - done.
  - by intros [? _].
  - done.
  - by intros [? _].
Qed.

Lemma results_fields_by_state_witness :
  ∃ job,
    "1" ≠ EmptyString ∧
    broker_with (settle python_hello (Failed "boom")) "1" = Some (Some job) ∧
    stored_state job = Some "failed" ∧ id_text 1 = stored_id job ∧
    (∀ out, None = Some out
            ↔ "failed" = "completed" ∧ out = stored_returnvalue job) ∧
    (∀ e, Some "boom" = Some e
          ↔ "failed" = "failed" ∧ e = stored_failedReason job).
Proof.
  apply (results_fields_by_state
           (broker_with (settle python_hello (Failed "boom"))) "1"
           {| res_jobId := id_text 1; res_state := "failed";
              res_output := None; res_error := Some "boom";
              res_message := "Job ID 1 failed execution" |}).
  vm_compute. reflexivity.
Defined.

(** X21. From the worker to the result route. For a job this worker has
    processed and BullMQ has settled, [GET /results/:jobId] answers with
    a result body in one of two shapes. Either the state is [completed],
    there is no [error], and [output] is the stdout captured from a
    container run of this job that exited with status 0. Or the state is
    [failed], there is no [output], and [error] is the message of the
    error the worker threw. *)
Theorem results_report_run (env : Env) (job : Job) (fs : gmap string File)
  (getJob : string → option (option StoredJob)) (jobId : string) :
  jobId ≠ EmptyString →
  getJob jobId = Some (Some (settle job (process_job env job fs).1.1)) →
  ∃ b,
    get_results getJob jobId = ResultOk b ∧
    res_jobId b = id_text (job_id job) ∧
    ((∃ out cmd err,
        res_state b = "completed" ∧ res_output b = Some out ∧
        res_error b = None ∧
        EvExec cmd EXEC_TIMEOUT (Exit 0 out err) ∈ (process_job env job fs).2)
     ∨ (∃ reason,
          res_state b = "failed" ∧ res_output b = None ∧
          res_error b = Some reason ∧
          (process_job env job fs).1.1 = Failed reason)).
Proof.
  intros Hid Hget. unfold get_results.
  destruct jobId as [|c jobId]; [done |]. cbn [truthy negb]. rewrite Hget.
  destruct (process_job_worker env job fs) as (r & fs' & evs & _ & Hpath & Heq).
  rewrite Heq. cbn [fst snd].
  remember (r, fs', evs) as run eqn:Hrun.
  destruct Hpath as [?|?|?|?|?|?|?|?
    |key st d out' err fs1 fs2 evs' Hup Hw Hc Hcfg Hsb Hcase Hclean];
    injection Hrun as <- <- <-; cbn;
    try (eexists; split; [reflexivity |]; split; [reflexivity |];
         right; by eexists).
  eexists. split; [reflexivity |]. split; [reflexivity |].
  left. eexists out', _, err. cbn. do 3 (split; [done |]).
  do 2 apply list_elem_of_further. apply list_elem_of_here.
Qed.

Lemma results_report_run_witness :
  ∃ b,
    get_results
      (broker_with
         (settle python_hello
            (process_job (quiet_env uuid_a (Exit 0 "hi" EmptyString))
               python_hello ∅).1.1)) "1"
    = ResultOk b ∧
    res_jobId b = id_text (job_id python_hello) ∧
    ((∃ out cmd err,
        res_state b = "completed" ∧ res_output b = Some out ∧
        res_error b = None ∧
        EvExec cmd EXEC_TIMEOUT (Exit 0 out err)
          ∈ (process_job (quiet_env uuid_a (Exit 0 "hi" EmptyString))
               python_hello ∅).2)
     ∨ (∃ reason,
          res_state b = "failed" ∧ res_output b = None ∧
          res_error b = Some reason ∧
          (process_job (quiet_env uuid_a (Exit 0 "hi" EmptyString))
             python_hello ∅).1.1 = Failed reason)).
Proof.
  apply (results_report_run (quiet_env uuid_a (Exit 0 "hi" EmptyString))
           python_hello ∅).
  - discriminate.
  - vm_compute. reflexivity.
Defined.

End ResultsFacts.
